(** * outlook-cli: the token lifecycle of [outlook_cli/auth.py]

    A shallow embedding of [AuthManager]: the token file, the device-code
    login with its polling loop, the refresh of an access token and the
    resolver [get_access_token] every resource client calls.

    The Python methods read the clock, talk to two remote endpoints, print
    to the terminal and rewrite [tokens.json].  All of that is threaded
    through an explicit [World]; a method is a function from a world to a
    result and a new world.

    Conventions of the embedding.
    - [time.time()] and the durations of the protocol are exact integers
      (a number of seconds); rounding of Python floats is not modelled.
    - A JSON object received from a server is seen through the keys the
      client reads, each one possibly absent, at the type the protocol
      gives it (strings for codes, tokens and identities, integers for
      durations).
    - The methods return [True]/[False] or a token/[None]; what happened is
      told to the operator through [click.echo].  Each message of the
      source is a constructor of [Msg]. *)

From Stdlib Require Import ZArith String List Bool Lia.
Import ListNotations.

Open Scope string_scope.
Open Scope list_scope.
Open Scope Z_scope.

(** ** JSON payloads *)

(** The view of a JSON object at the keys [auth.py] subscripts or [get]s.
    [None] is a key that is absent (for [mail] and [userPrincipalName],
    which are only read through [dict.get], also a JSON [null]). *)
Record Json := mkJson {
  j_device_code : option string;
  j_user_code : option string;
  j_verification_uri : option string;
  j_expires_in : option Z;
  j_interval : option Z;
  j_access_token : option string;
  j_refresh_token : option string;
  j_error : option string;
  j_mail : option string;
  j_userPrincipalName : option string
}.

(** The Python literal [{}]. *)
Definition empty_json : Json :=
  mkJson None None None None None None None None None None.

(** ** Account Token Record: the value stored under an account's key. *)
Record Account := mkAccount {
  client_id : string;
  tenant : string;
  access_token : string;
  refresh_token : string;
  expires_at : Z;
  user_info : Json
}.

(** ** Python dictionaries, in insertion order *)

(** A key of the in-memory [tokens] dictionary: a [str], or [None]. *)
Definition Key := option string.

Definition key_eqb (a b : Key) : bool :=
  match a, b with
  | None, None => true
  | Some x, Some y => String.eqb x y
  | _, _ => false
  end.

Definition Dict := list (Key * Account).

(** [d[k]], with [None] standing for [KeyError]. *)
Fixpoint dict_get (d : Dict) (k : Key) : option Account :=
  match d with
  | [] => None
  | (k', v) :: d' => if key_eqb k' k then Some v else dict_get d' k
  end.

(** [k in d] *)
Definition dict_mem (d : Dict) (k : Key) : bool :=
  match dict_get d k with Some _ => true | None => false end.

(** [d[k] = v]: an existing key keeps its place, a new one goes last. *)
Fixpoint dict_set (d : Dict) (k : Key) (v : Account) : Dict :=
  match d with
  | [] => [(k, v)]
  | (k', v') :: d' =>
      if key_eqb k' k then (k', v) :: d' else (k', v') :: dict_set d' k v
  end.

(** [list(d.keys())] *)
Definition dict_keys (d : Dict) : list Key := map fst d.

(** ** The JSON text of [tokens.json] *)

(** The members of the top-level JSON object, in the order they are
    written.  Member names are strings; a name may occur twice. *)
Definition Members := list (string * Account).

(** [json.dump] turns a key that is [None] into the member name [null]. *)
Definition json_key (k : Key) : string :=
  match k with
  | Some s => s
  | None => "null"
  end.

Definition json_dump (d : Dict) : Members :=
  map (fun kv => (json_key (fst kv), snd kv)) d.

(** [json.load] builds the dictionary member by member, so of two members
    with one name the later value wins, at the place of the earlier. *)
Definition json_load (ms : Members) : Dict :=
  fold_left (fun d kv => dict_set d (Some (fst kv)) (snd kv)) ms [].

(** ** Terminal output and other observable events *)

Inductive Msg : Type :=
| MRequestingCode                 (* "Requesting device code..." *)
| MErrorText (body : string)      (* f"Error: {response.text}" *)
| MRuleNl                         (* "\n" + "="*50 *)
| MCode (user_code : string)      (* f"  CODE: {user_code}" *)
| MRule                           (* "="*50 *)
| MGoTo (uri : string)            (* f"  Go to: {verification_uri}" *)
| MWaiting                        (* "\nWaiting for authorization..." *)
| MSuccess (email : Key)          (* f"\n✓ Successfully authenticated as {email}" *)
| MDot                            (* ".", nl=False *)
| MDeclined                       (* "\n✗ Authorization declined" *)
| MExpired                        (* "\n✗ Device code expired" *)
| MErrorPayload (error_data : Json) (* f"\nError: {error_data}" *)
| MTimeout                        (* "\n✗ Timeout waiting for authorization" *)
| MNotAuthenticated               (* "Not authenticated. Run: outlook auth login" *)
| MAccountNotFound (email : Key)  (* f"Account {email} not found. Run: outlook auth login" *)
| MRefreshFailed (body : string). (* f"Failed to refresh token: {response.text}" *)

Inductive Event : Type :=
| Echo (err : bool) (m : Msg)                          (* click.echo(m, err=err) *)
| HttpPost (url : string) (data : list (string * string)) (* requests.post(url, data=data) *)
| HttpGet (url : string) (headers : list (string * string)) (* requests.get(url, headers=headers) *)
| Sleep (secs : Z)                                     (* time.sleep(secs) *)
| WriteTokens (ms : Members)                           (* open(token_file, 'w'); json.dump *)
| Chmod (mode : Z).                                    (* token_file.chmod(mode) *)

(** ** The world a method runs in *)

(** What a remote endpoint answers to one request, and how long the round
    trip takes. *)
Record Reply := mkReply {
  latency : nat;
  status_code : Z;
  text : string;
  json : Json
}.

Record World := mkWorld {
  token_file : option Members;   (* tokens.json; [None] when it does not exist *)
  clock : Z;                     (* the value [time.time()] returns *)
  server : nat -> Reply;         (* the reply to the n-th request of the run *)
  sent : nat;                    (* number of requests made so far *)
  trace : list Event             (* what has been observed, oldest first *)
}.

Definition log (e : Event) (w : World) : World :=
  mkWorld (token_file w) (clock w) (server w) (sent w) (trace w ++ [e]).

(** ** Results, exceptions and the monad of methods *)

Inductive PyExn : Type :=
| KeyError (key : Key)
| ValueError
| IndexError.

Inductive Result (A : Type) : Type :=
| Val (a : A)
| Raise (e : PyExn)
| OutOfFuel.
Arguments Val {A} a.
Arguments Raise {A} e.
Arguments OutOfFuel {A}.

Definition M (A : Type) : Type := World -> Result A * World.

Definition ret {A} (a : A) : M A := fun w => (Val a, w).

Definition raise {A} (e : PyExn) : M A := fun w => (Raise e, w).

Definition bind {A B} (m : M A) (f : A -> M B) : M B :=
  fun w =>
    match m w with
    | (Val a, w') => f a w'
    | (Raise e, w') => (Raise e, w')
    | (OutOfFuel, w') => (OutOfFuel, w')
    end.

Notation "x <- m ;; k" := (bind m (fun x => k))
  (at level 61, m at next level, right associativity).
Notation "m ;;; k" := (bind m (fun _ => k))
  (at level 61, right associativity).

(** [d[key]] on a JSON object. *)
Definition subscript {A} (field : option A) (key : string) : M A :=
  match field with
  | Some a => ret a
  | None => raise (KeyError (Some key))
  end.

(** *** Primitives *)

Definition echo (err : bool) (m : Msg) : M unit :=
  fun w => (Val tt, log (Echo err m) w).

Definition time_time : M Z := fun w => (Val (clock w), w).

(** [time.sleep] refuses a negative length. *)
Definition time_sleep (secs : Z) : M unit :=
  fun w =>
    if secs <? 0 then (Raise ValueError, w)
    else (Val tt,
          mkWorld (token_file w) (clock w + secs) (server w) (sent w)
                  (trace w ++ [Sleep secs])).

(** One round trip: the request is observed, the reply is the server's
    next one, and the clock has moved by the reply's latency. *)
Definition round_trip (e : Event) : M Reply :=
  fun w =>
    let r := server w (sent w) in
    (Val r,
     mkWorld (token_file w) (clock w + Z.of_nat (latency r)) (server w)
             (S (sent w)) (trace w ++ [e])).

Definition requests_post (url : string) (data : list (string * string)) : M Reply :=
  round_trip (HttpPost url data).

Definition requests_get (url : string) (headers : list (string * string)) : M Reply :=
  round_trip (HttpGet url headers).

(** ** Token Store *)

Definition _load_tokens : M Dict :=
  fun w =>
    match token_file w with
    | Some ms => (Val (json_load ms), w)
    | None => (Val [], w)
    end.

Definition _save_tokens (tokens : Dict) : M unit :=
  fun w =>
    let ms := json_dump tokens in
    (Val tt,
     mkWorld (Some ms) (clock w) (server w) (sent w)
             (trace w ++ [WriteTokens ms; Chmod 384])).

(** ** Token Refresh *)

Definition token_url (tenant : string) : string :=
  ("https://login.microsoftonline.com/" ++ tenant ++ "/oauth2/v2.0/token")%string.

(** [tokens[email]]; [KeyError] when [email] is not a key. *)
Definition dict_subscript (tokens : Dict) (email : Key) : M Account :=
  match dict_get tokens email with
  | Some a => ret a
  | None => raise (KeyError email)
  end.

(** [tokens[email][field] = value], the new record being [f] of the old. *)
Definition update_account (tokens : Dict) (email : Key)
    (f : Account -> Account) : M Dict :=
  a <- dict_subscript tokens email ;;
  ret (dict_set tokens email (f a)).

Definition set_access_token (v : string) (a : Account) : Account :=
  mkAccount (client_id a) (tenant a) v (refresh_token a) (expires_at a) (user_info a).

Definition set_expires_at (v : Z) (a : Account) : Account :=
  mkAccount (client_id a) (tenant a) (access_token a) (refresh_token a) v (user_info a).

Definition set_refresh_token (v : string) (a : Account) : Account :=
  mkAccount (client_id a) (tenant a) (access_token a) v (expires_at a) (user_info a).

Definition _refresh_token (email : Key) (account_data : Account) : M (option string) :=
  response <- requests_post (token_url (tenant account_data))
                [("client_id", client_id account_data);
                 ("grant_type", "refresh_token");
                 ("refresh_token", refresh_token account_data)] ;;
  if status_code response =? 200 then
    let token_data := json response in
    tokens <- _load_tokens ;;
    new_access <- subscript (j_access_token token_data) "access_token" ;;
    tokens <- update_account tokens email (set_access_token new_access) ;;
    now <- time_time ;;
    expires_in <- subscript (j_expires_in token_data) "expires_in" ;;
    tokens <- update_account tokens email (set_expires_at (now + expires_in)) ;;
    tokens <- match j_refresh_token token_data with
              | Some rt => update_account tokens email (set_refresh_token rt)
              | None => ret tokens
              end ;;
    _save_tokens tokens ;;;
    ret (Some new_access)
  else
    echo true (MRefreshFailed (text response)) ;;;
    ret None.

(** ** Credential Resolver *)

(** Python truthiness of a returned token: [None] and the empty string are
    false. *)
Definition truthy (t : option string) : bool :=
  match t with
  | Some s => negb (String.eqb s "")
  | None => false
  end.

(** [list(tokens.keys())[0]] *)
Definition first_key (tokens : Dict) : M Key :=
  match dict_keys tokens with
  | k :: _ => ret k
  | [] => raise IndexError
  end.

Definition get_access_token (email : option string) : M (option string) :=
  tokens <- _load_tokens ;;
  if (length tokens =? 0)%nat then
    echo true MNotAuthenticated ;;;
    ret None
  else
    email <- match email with
             | None => first_key tokens
             | Some _ => ret email
             end ;;
    if negb (dict_mem tokens email) then
      echo true (MAccountNotFound email) ;;;
      ret None
    else
      account_data <- dict_subscript tokens email ;;
      now <- time_time ;;
      if now >=? expires_at account_data - 300 then
        new_token <- _refresh_token email account_data ;;
        if truthy new_token then ret new_token else ret None
      else
        ret (Some (access_token account_data)).

(** ** Device Authorization Flow *)

Definition device_code_url (tenant : string) : string :=
  ("https://login.microsoftonline.com/" ++ tenant ++ "/oauth2/v2.0/devicecode")%string.

Definition scopes : string :=
  "Mail.Read Mail.Send Calendars.ReadWrite Tasks.ReadWrite User.Read offline_access".

Definition graph_me_url : string := "https://graph.microsoft.com/v1.0/me".

Definition _get_user_info (access_token : string) : M Json :=
  response <- requests_get graph_me_url
                [("Authorization", ("Bearer " ++ access_token)%string)] ;;
  if status_code response =? 200 then ret (json response)
  else ret empty_json.

(** Python's [a or b] on two results of [dict.get]: [a] when it is
    truthy (a non-empty string), else [b]. *)
Definition py_or (a b : option string) : option string :=
  if truthy a then a else b.

(** [d.get(key, default)] *)
Definition get_default {A} (field : option A) (default : A) : A :=
  match field with
  | Some a => a
  | None => default
  end.

(** [d.get('error') == name] *)
Definition error_is (error_data : Json) (name : string) : bool :=
  match j_error error_data with
  | Some e => String.eqb e name
  | None => false
  end.

(** The [while] loop of step 2.  [fuel] bounds the number of times the
    loop condition is evaluated. *)
Fixpoint poll_loop (fuel : nat) (client_id tenant device_code : string)
    (interval expires_in start_time : Z) : M bool :=
  match fuel with
  | O => fun w => (OutOfFuel, w)
  | S fuel' =>
      now <- time_time ;;
      if now - start_time <? expires_in then
        time_sleep interval ;;;
        token_response <- requests_post (token_url tenant)
                            [("client_id", client_id);
                             ("grant_type", "urn:ietf:params:oauth:grant-type:device_code");
                             ("device_code", device_code)] ;;
        if status_code token_response =? 200 then
          let token_data := json token_response in
          access_token <- subscript (j_access_token token_data) "access_token" ;;
          user_info <- _get_user_info access_token ;;
          let email := py_or (j_mail user_info) (j_userPrincipalName user_info) in
          tokens <- _load_tokens ;;
          refresh_token <- subscript (j_refresh_token token_data) "refresh_token" ;;
          now <- time_time ;;
          expires_in <- subscript (j_expires_in token_data) "expires_in" ;;
          let tokens :=
            dict_set tokens email
              (mkAccount client_id tenant access_token refresh_token
                         (now + expires_in) user_info) in
          _save_tokens tokens ;;;
          echo false (MSuccess email) ;;;
          ret true
        else
          let error_data := json token_response in
          if error_is error_data "authorization_pending" then
            echo false MDot ;;;
            poll_loop fuel' client_id tenant device_code interval expires_in start_time
          else if error_is error_data "authorization_declined" then
            echo false MDeclined ;;;
            ret false
          else if error_is error_data "expired_token" then
            echo false MExpired ;;;
            ret false
          else
            echo true (MErrorPayload error_data) ;;;
            ret false
      else
        echo false MTimeout ;;;
        ret false
  end.

Definition device_code_login (fuel : nat) (client_id tenant : string) : M bool :=
  echo false MRequestingCode ;;;
  response <- requests_post (device_code_url tenant)
                [("client_id", client_id); ("scope", scopes)] ;;
  if negb (status_code response =? 200) then
    echo true (MErrorText (text response)) ;;;
    ret false
  else
    let device_data := json response in
    device_code <- subscript (j_device_code device_data) "device_code" ;;
    user_code <- subscript (j_user_code device_data) "user_code" ;;
    let verification_uri :=
      get_default (j_verification_uri device_data) "https://microsoft.com/devicelogin" in
    expires_in <- subscript (j_expires_in device_data) "expires_in" ;;
    let interval := get_default (j_interval device_data) 5 in
    echo false MRuleNl ;;;
    echo false (MCode user_code) ;;;
    echo false MRule ;;;
    echo false (MGoTo verification_uri) ;;;
    echo false MRule ;;;
    echo false MWaiting ;;;
    start_time <- time_time ;;
    poll_loop fuel client_id tenant device_code interval expires_in start_time.

(** ** The methods that only report

    [logout], [list_accounts] and [status] print and return nothing.  The
    lines they print are their result here, one [Notice] per
    [click.echo]. *)

Inductive Notice : Type :=
| NLoggedOut                      (* "✓ Logged out successfully" *)
| NNoSession                      (* "No active session" *)
| NNoAccounts                     (* "No accounts" *)
| NAccountsHeader                 (* "Authenticated accounts:" *)
| NAccountLine (email : Key)      (* f"  - {email}" *)
| NNotAuthenticated               (* "Not authenticated" *)
| NValid (email : Key) (expires : Z)
    (* f"{email}: Valid (expires {expires.strftime('%Y-%m-%d %H:%M')})" *)
| NExpired (email : Key).         (* f"{email}: Expired" *)

(** [logout]: [token_file.unlink()] when the file exists. *)
Definition logout : M Notice :=
  fun w =>
    match token_file w with
    | Some _ =>
        (Val NLoggedOut, mkWorld None (clock w) (server w) (sent w) (trace w))
    | None => (Val NNoSession, w)
    end.

Definition list_accounts : M (list Notice) :=
  tokens <- _load_tokens ;;
  if (length tokens =? 0)%nat then ret [NNoAccounts]
  else ret (NAccountsHeader :: map NAccountLine (dict_keys tokens)).

(** The loop of [status] over [tokens.items()].  [fromtimestamp] is
    [datetime.fromtimestamp]: the reading of the local wall clock at a
    timestamp, as a number of seconds; [datetime.now()] is that reading at
    [time.time()], and naive datetimes compare as those numbers do. *)
Fixpoint status_loop (fromtimestamp : Z -> Z) (items : Dict) : M (list Notice) :=
  match items with
  | [] => ret []
  | (email, data) :: rest =>
      let expires := fromtimestamp (expires_at data) in
      t <- time_time ;;
      let now := fromtimestamp t in
      let line := if expires >? now then NValid email expires
                  else NExpired email in
      lines <- status_loop fromtimestamp rest ;;
      ret (line :: lines)
  end.

Definition status (fromtimestamp : Z -> Z) : M (list Notice) :=
  tokens <- _load_tokens ;;
  if (length tokens =? 0)%nat then ret [NNotAuthenticated]
  else status_loop fromtimestamp tokens.

(** ** Resource clients: what [EmailClient], [CalendarClient] and
    [TasksClient] share *)

(** The outcome of a client method: a value, [raise Exception(msg)], an
    exception of the resolver passing through, or fuel run out. *)
Inductive ClientResult (A : Type) : Type :=
| Ready (a : A)
| Failure (msg : string)
| Uncaught (e : PyExn)
| Unfinished.
Arguments Ready {A} a.
Arguments Failure {A} msg.
Arguments Uncaught {A} e.
Arguments Unfinished {A}.

Record Client := mkClient {
  c_account : option string;
  c_access_token : string
}.

(** [__init__]: the same in the three clients.  A token that is [None] or
    empty is refused. *)
Definition client_init (account : option string) : World -> ClientResult Client * World :=
  fun w =>
    match get_access_token account w with
    | (Val t, w') =>
        if negb (truthy t) then (Failure "Not authenticated", w')
        else match t with
             | Some tok => (Ready (mkClient account tok), w')
             | None => (Failure "Not authenticated", w')
             end
    | (Raise e, w') => (Uncaught e, w')
    | (OutOfFuel, w') => (Unfinished, w')
    end.

Definition _headers (c : Client) : list (string * string) :=
  [("Authorization", ("Bearer " ++ c_access_token c)%string);
   ("Content-Type", "application/json")].

(** ** [TasksClient]

    The Graph endpoints answer with documents the [Json] view above does
    not show, so the calls of a client run against a world of their own:
    the replies of the Graph service, and the calls made. *)

(** An element of the [value] array of [/me/todo/lists], at the two keys
    the client subscripts. *)
Record TaskList := mkTaskList {
  tl_displayName : option string;
  tl_id : option string
}.

Record GraphReply := mkGraphReply {
  g_status : Z;                        (* response.status_code *)
  g_text : string;                     (* response.text *)
  g_value : option (list TaskList)     (* response.json()['value'], if there *)
}.

(** The JSON body of a task: [title], [status] and [dueDateTime]
    ([dateTime], [timeZone]), each one there or not. *)
Record TaskBody := mkTaskBody {
  tb_title : option string;
  tb_status : option string;
  tb_dueDateTime : option (string * string)
}.

Inductive GraphCall : Type :=
| GGet (url : string) (headers params : list (string * string))
| GPost (url : string) (headers : list (string * string)) (body : TaskBody)
| GPatch (url : string) (headers : list (string * string)) (body : TaskBody)
| GDelete (url : string) (headers : list (string * string)).

Record Graph := mkGraph {
  g_server : nat -> GraphReply;   (* the reply to the n-th call *)
  g_sent : nat;
  g_calls : list GraphCall        (* oldest first *)
}.

Definition graph_call (c : GraphCall) (g : Graph) : GraphReply * Graph :=
  (g_server g (g_sent g),
   mkGraph (g_server g) (S (g_sent g)) (g_calls g ++ [c])).

Definition GRAPH_BASE : string := "https://graph.microsoft.com/v1.0".

(** The [for] loop of [_get_task_list_id]: [Ready (Some id)] is its
    [return], [Ready None] its normal end. *)
Fixpoint match_task_list (lists : list TaskList) (list_name : string)
    : ClientResult (option string) :=
  match lists with
  | [] => Ready None
  | task_list :: rest =>
      match tl_displayName task_list with
      | None => Uncaught (KeyError (Some "displayName"))
      | Some name =>
          if String.eqb name list_name then
            match tl_id task_list with
            | None => Uncaught (KeyError (Some "id"))
            | Some i => Ready (Some i)
            end
          else match_task_list rest list_name
      end
  end.

Definition task_list_not_found (list_name : string) : string :=
  ("Task list '" ++ list_name ++ "' not found")%string.

Definition _get_task_list_id (c : Client) (list_name : string) (g : Graph)
    : ClientResult string * Graph :=
  let url := (GRAPH_BASE ++ "/me/todo/lists")%string in
  let (response, g) := graph_call (GGet url (_headers c) []) g in
  if g_status response =? 200 then
    let lists := get_default (g_value response) [] in
    match match_task_list lists list_name with
    | Ready (Some i) => (Ready i, g)
    | Ready None =>
        match lists with
        | first :: _ =>
            match tl_id first with
            | Some i => (Ready i, g)
            | None => (Uncaught (KeyError (Some "id")), g)
            end
        | [] => (Failure (task_list_not_found list_name), g)
        end
    | Failure msg => (Failure msg, g)
    | Uncaught e => (Uncaught e, g)
    | Unfinished => (Unfinished, g)
    end
  else (Failure (task_list_not_found list_name), g).

Definition tasks_url (list_id : string) : string :=
  (GRAPH_BASE ++ "/me/todo/lists/" ++ list_id ++ "/tasks")%string.

Definition task_url (list_id task_id : string) : string :=
  (GRAPH_BASE ++ "/me/todo/lists/" ++ list_id ++ "/tasks/" ++ task_id)%string.

(** [create_task]; the document returned on 201 is the reply's. *)
Definition create_task (c : Client) (title list_name : string)
    (due_date : option string) (g : Graph) : ClientResult GraphReply * Graph :=
  match _get_task_list_id c list_name g with
  | (Ready list_id, g) =>
      let url := tasks_url list_id in
      let task :=
        if truthy due_date then
          mkTaskBody (Some title) None
                     (Some (match due_date with Some d => d | None => "" end, "UTC"))
        else mkTaskBody (Some title) None None in
      let (response, g) := graph_call (GPost url (_headers c) task) g in
      if g_status response =? 201 then (Ready response, g)
      else (Failure ("Failed to create task: " ++ g_text response)%string, g)
  | (Failure msg, g) => (Failure msg, g)
  | (Uncaught e, g) => (Uncaught e, g)
  | (Unfinished, g) => (Unfinished, g)
  end.

(** The keyword arguments of [update_task] that it looks at; [None] is an
    argument not passed. *)
Record TaskChanges := mkTaskChanges {
  k_title : option string;
  k_status : option string;
  k_due_date : option string
}.

Definition update_task (c : Client) (task_id list_name : string)
    (kwargs : TaskChanges) (g : Graph) : ClientResult GraphReply * Graph :=
  match _get_task_list_id c list_name g with
  | (Ready list_id, g) =>
      let url := task_url list_id task_id in
      let task :=
        mkTaskBody (k_title kwargs) (k_status kwargs)
                   (match k_due_date kwargs with
                    | Some d => Some (d, "UTC")
                    | None => None
                    end) in
      let (response, g) := graph_call (GPatch url (_headers c) task) g in
      if g_status response =? 200 then (Ready response, g)
      else (Failure ("Failed to update task: " ++ g_text response)%string, g)
  | (Failure msg, g) => (Failure msg, g)
  | (Uncaught e, g) => (Uncaught e, g)
  | (Unfinished, g) => (Unfinished, g)
  end.

Definition complete_task (c : Client) (task_id list_name : string) (g : Graph)
    : ClientResult GraphReply * Graph :=
  update_task c task_id list_name (mkTaskChanges None (Some "completed") None) g.

(** [delete_task]; [Ready tt] is the [{'success': True}] it returns. *)
Definition delete_task (c : Client) (task_id list_name : string) (g : Graph)
    : ClientResult unit * Graph :=
  match _get_task_list_id c list_name g with
  | (Ready list_id, g) =>
      let url := task_url list_id task_id in
      let (response, g) := graph_call (GDelete url (_headers c)) g in
      if g_status response =? 204 then (Ready tt, g)
      else (Failure ("Failed to delete task: " ++ g_text response)%string, g)
  | (Failure msg, g) => (Failure msg, g)
  | (Uncaught e, g) => (Uncaught e, g)
  | (Unfinished, g) => (Unfinished, g)
  end.

(** * Observations used by the statements *)

(** The token store as [_load_tokens] sees it. *)
Definition store (w : World) : Dict :=
  match token_file w with
  | Some ms => json_load ms
  | None => []
  end.

(** The account [get_access_token] works on: the one asked for, or the
    first key of the store. *)
Definition resolved (tokens : Dict) (email : option string) : Key :=
  match email with
  | Some s => Some s
  | None => hd None (dict_keys tokens)
  end.

(** A refresh is observed as the token request it sends. *)
Definition is_refresh_request (e : Event) : bool :=
  match e with
  | HttpPost _ data =>
      existsb (fun kv => String.eqb (fst kv) "grant_type"
                         && String.eqb (snd kv) "refresh_token") data
  | _ => false
  end.

Definition refresh_calls (t : list Event) : nat :=
  length (filter is_refresh_request t).

Definition is_write (e : Event) : bool :=
  match e with
  | WriteTokens _ => true
  | _ => false
  end.

Definition writes (t : list Event) : nat := length (filter is_write t).

(** The error kinds of the resolver, told apart by the message printed. *)
Inductive AuthError : Type := NotAuthenticated | AccountNotFound | RefreshFailed.

Definition auth_error_of (m : Msg) : option AuthError :=
  match m with
  | MNotAuthenticated => Some NotAuthenticated
  | MAccountNotFound _ => Some AccountNotFound
  | MRefreshFailed _ => Some RefreshFailed
  | _ => None
  end.

(** A run of the resolver fails with [err]: it returns [None] and the last
    thing observed is the message of [err] on the error stream. *)
Definition fails_with (err : AuthError) (out : Result (option string) * World) : Prop :=
  fst out = Val None /\
  exists t m, trace (snd out) = t ++ [Echo true m] /\ auth_error_of m = Some err.

(** The states of the device authorization flow, and the terminal state a
    final message stands for. *)
Inductive FlowState : Type :=
| REQUESTING_CODE | POLLING
| AUTHENTICATED | DECLINED | EXPIRED | TIMED_OUT | REQUEST_FAILED.

Definition terminal_state (e : Event) : option FlowState :=
  match e with
  | Echo false (MSuccess _) => Some AUTHENTICATED
  | Echo false MDeclined => Some DECLINED
  | Echo false MExpired => Some EXPIRED
  | Echo false MTimeout => Some TIMED_OUT
  | Echo true (MErrorPayload _) => Some REQUEST_FAILED
  | Echo true (MErrorText _) => Some REQUEST_FAILED
  | _ => None
  end.

(** A run of the flow ends in state [s]: it returns, [True] exactly for
    [AUTHENTICATED], and its last message is the one of [s]. *)
Definition ends_in (s : FlowState) (out : Result bool * World) : Prop :=
  (exists b, fst out = Val b /\
             (b = true <-> s = AUTHENTICATED)) /\
  exists t e, trace (snd out) = t ++ [e] /\ terminal_state e = Some s.

(** The request a refresh of [account_data] sends. *)
Definition refresh_request (account_data : Account) : Event :=
  HttpPost (token_url (tenant account_data))
    [("client_id", client_id account_data);
     ("grant_type", "refresh_token");
     ("refresh_token", refresh_token account_data)].

(** The world once the next reply has arrived for a request [e]. *)
Definition after_reply (e : Event) (w : World) : World :=
  mkWorld (token_file w) (clock w + Z.of_nat (latency (server w (sent w))))
          (server w) (S (sent w)) (trace w ++ [e]).

(** The world once [tokens] has been saved. *)
Definition after_save (tokens : Dict) (w : World) : World :=
  mkWorld (Some (json_dump tokens)) (clock w) (server w) (sent w)
          (trace w ++ [WriteTokens (json_dump tokens); Chmod 384]).

(** The record a successful refresh leaves: new access token and expiry,
    the refresh token of the response when it has one, the rest as in
    [old]. *)
Definition refreshed (old : Account) (a : string) (exp : Z) (rt : option string) : Account :=
  mkAccount (client_id old) (tenant old) a
            (match rt with Some t => t | None => refresh_token old end)
            exp (user_info old).

(** The world after [time.sleep(secs)]. *)
Definition slept (secs : Z) (w : World) : World :=
  mkWorld (token_file w) (clock w + secs) (server w) (sent w)
          (trace w ++ [Sleep secs]).

(** The token request of one poll, and the profile request. *)
Definition poll_request (client_id tenant device_code : string) : Event :=
  HttpPost (token_url tenant)
    [("client_id", client_id);
     ("grant_type", "urn:ietf:params:oauth:grant-type:device_code");
     ("device_code", device_code)].

Definition profile_request (access_token : string) : Event :=
  HttpGet graph_me_url [("Authorization", ("Bearer " ++ access_token)%string)].

(** What [_get_user_info] makes of the profile endpoint's reply. *)
Definition profile_of (p : Reply) : Json :=
  if status_code p =? 200 then json p else empty_json.

(** The identity a login derives from a profile. *)
Definition identity_of (user_info : Json) : Key :=
  py_or (j_mail user_info) (j_userPrincipalName user_info).

(** Seconds since the polling loop started. *)
Definition elapsed (start_time : Z) (w : World) : Z := clock w - start_time.

(** A reply that tells the poller the user has not answered yet. *)
Definition pending (r : Reply) : Prop :=
  status_code r <> 200 /\ j_error (json r) = Some "authorization_pending".



(** The request for a device code, and the world in which the polling
    loop of a login starts: the request answered and the code shown. *)
Definition device_code_request (client_id tenant : string) : Event :=
  HttpPost (device_code_url tenant) [("client_id", client_id); ("scope", scopes)].

Definition code_shown (client_id tenant : string) (w : World) : World :=
  let w1 := after_reply (device_code_request client_id tenant)
              (log (Echo false MRequestingCode) w) in
  let device_data := json (server w (sent w)) in
  mkWorld (token_file w1) (clock w1) (server w1) (sent w1)
    (trace w1 ++
     [Echo false MRuleNl;
      Echo false (MCode (match j_user_code device_data with Some c => c | None => "" end));
      Echo false MRule;
      Echo false (MGoTo (get_default (j_verification_uri device_data)
                                     "https://microsoft.com/devicelogin"));
      Echo false MRule;
      Echo false MWaiting]).

(** The call [_get_task_list_id] makes, and the Graph world after a
    call. *)
Definition lists_request (c : Client) : GraphCall :=
  GGet (GRAPH_BASE ++ "/me/todo/lists")%string (_headers c) [].

Definition called (call : GraphCall) (g : Graph) : Graph :=
  mkGraph (g_server g) (S (g_sent g)) (g_calls g ++ [call]).

(** A task list that has a name, and not the name looked for. *)
Definition named_otherwise (list_name : string) (l : TaskList) : Prop :=
  exists name, tl_displayName l = Some name /\ name <> list_name.

(** A store as [json.load] builds it: no key twice, no key [None]. *)
Definition wf_dict (d : Dict) : Prop :=
  NoDup (dict_keys d) /\ Forall (fun k => k <> None) (dict_keys d).

(** * Scenarios

    Concrete stores, replies and worlds on which the statements below are
    run. *)

Definition token_body (a : string) (rt : option string) (n : Z) : Json :=
  mkJson None None None (Some n) None (Some a) rt None None None.

Definition error_body (e : string) : Json :=
  mkJson None None None None None None None (Some e) None None.

Definition profile_body (mail upn : option string) : Json :=
  mkJson None None None None None None None None mail upn.

Definition device_body (expires_in : Z) (interval : option Z) : Json :=
  mkJson (Some "dc-1") (Some "ABCD-1234") None (Some expires_in) interval
         None None None None None.

(** A reply that arrives at once. *)
Definition reply (status : Z) (body : Json) : Reply := mkReply 0 status "" body.

(** A server that gives the listed replies in turn, then errors. *)
Definition script (rs : list Reply) : nat -> Reply :=
  fun i => nth i rs (mkReply 0 500 "server error" empty_json).

(** A server that gives one reply to everything. *)
Definition always (r : Reply) : nat -> Reply := fun _ => r.

Definition alice : Account :=
  mkAccount "app-1" "consumers" "at-alice" "rt-alice" 5000
            (profile_body (Some "alice@example.com") None).

Definition bob : Account :=
  mkAccount "app-1" "contoso" "at-bob" "rt-bob" 9000
            (profile_body None (Some "bob@contoso.example")).

Definition two_accounts : Members :=
  [("alice@example.com", alice); ("bob@contoso.example", bob)].

(** A fresh run: nothing sent, nothing observed yet. *)
Definition world (file : option Members) (now : Z) (srv : nat -> Reply) : World :=
  mkWorld file now srv 0 [].

Definition pending_reply : Reply := reply 400 (error_body "authorization_pending").

(** Alice's token is within the margin and the endpoint refuses. *)
Definition refused_world : World :=
  world (Some two_accounts) 4800 (script [mkReply 1 400 "invalid_grant" (error_body "invalid_grant")]).

(** Alice's token is within the margin and the endpoint rotates it. *)
Definition rotating_world : World :=
  world (Some two_accounts) 4800
        (script [mkReply 2 200 "" (token_body "at-new" (Some "rt-new") 3600)]).

(** Both tokens are good for a long time. *)
Definition fresh_world : World := world (Some two_accounts) 1000 (script []).

(** No token file at all. *)
Definition empty_world : World := world None 0 (script []).

(** A poll that gets a token, for a third account. *)
Definition login_world : World :=
  world (Some two_accounts) 100
        (script [reply 200 (token_body "at-carol" (Some "rt-carol") 3600);
                 reply 200 (profile_body (Some "carol@example.com") None)]).

(** A poll that gets a token, and a profile endpoint that refuses. *)
Definition anonymous_login_world : World :=
  world (Some two_accounts) 100
        (script [reply 200 (token_body "at-x" (Some "rt-x") 3600);
                 reply 401 empty_json]).

(** A user who never answers. *)
Definition pending_world : World := world None 0 (always pending_reply).

Definition declined_world : World :=
  world (Some two_accounts) 0 (script [reply 400 (error_body "authorization_declined")]).

Definition expired_world : World :=
  world (Some two_accounts) 0 (script [reply 400 (error_body "expired_token")]).

Definition bad_request_world : World :=
  world (Some two_accounts) 0 (script [reply 400 (error_body "invalid_client")]).

(** Alice's token is within the margin and the endpoint answers 200 with
    an empty document, or with an empty access token. *)
Definition incomplete_refresh_world : World :=
  world (Some two_accounts) 4800 (script [reply 200 empty_json]).

Definition empty_token_world : World :=
  world (Some two_accounts) 4800 (script [reply 200 (token_body "" None 3600)]).

(** Alice's token is past its expiry, Bob's is not; a local clock one hour
    ahead of the timestamps. *)
Definition late_world : World := world (Some two_accounts) 6000 (script []).

Definition utc_plus_one (t : Z) : Z := t + 3600.

(** The device-code request is refused, or answered without [user_code]. *)
Definition refused_code_world : World :=
  world (Some two_accounts) 0 (script [mkReply 0 400 "invalid_client" empty_json]).

Definition incomplete_code_world : World :=
  world (Some two_accounts) 0
        (script [reply 200 (mkJson (Some "dc-1") None None (Some 900) None
                                   None None None None None)]).

(** A login: the code, three pending polls, the token, the profile. *)
Definition three_pending_world : World :=
  world (Some two_accounts) 100
        (script [reply 200 (device_body 900 None);
                 pending_reply; pending_reply; pending_reply;
                 reply 200 (token_body "at-carol" (Some "rt-carol") 3600);
                 reply 200 (profile_body (Some "carol@example.com") None)]).

(** The Graph service and a client for the tasks scenarios. *)
Definition graph (rs : list GraphReply) : Graph :=
  mkGraph (fun i => nth i rs (mkGraphReply 500 "error" None)) 0 [].

Definition my_lists : list TaskList :=
  [mkTaskList (Some "Tasks") (Some "id-tasks");
   mkTaskList (Some "Work") (Some "id-work");
   mkTaskList (Some "Work") (Some "id-work-2")].

Definition lists_graph : Graph :=
  graph [mkGraphReply 200 "" (Some my_lists); mkGraphReply 201 "" None].

Definition no_lists_graph : Graph := graph [mkGraphReply 200 "" (Some [])].

Definition bob_client : Client := mkClient (Some "bob@contoso.example") "at-bob".

(** A device code that is already expired, and one that comes with a
    negative polling interval. *)
Definition no_time_world : World :=
  world (Some two_accounts) 100 (script [reply 200 (device_body 0 None)]).

Definition negative_interval_world : World :=
  world (Some two_accounts) 100 (script [reply 200 (device_body 900 (Some (-1)))]).

(** * Dictionaries and the JSON file *)

Lemma key_eqb_eq (a b : Key) : key_eqb a b = true <-> a = b.
Proof.
  destruct a as [x|], b as [y|]; simpl; try (split; congruence).
  rewrite String.eqb_eq. split; congruence.
Qed.

Lemma key_eqb_refl (a : Key) : key_eqb a a = true.
Proof. apply key_eqb_eq. reflexivity. Qed.

Lemma key_eqb_neq (a b : Key) : key_eqb a b = false <-> a <> b.
Proof.
  rewrite <- key_eqb_eq. destruct (key_eqb a b); split; congruence.
Qed.

Lemma dict_get_set_same (d : Dict) k v : dict_get (dict_set d k v) k = Some v.
Proof.
  induction d as [|[k' v'] d IH]; simpl.
  - now rewrite key_eqb_refl.
  - destruct (key_eqb k' k) eqn:E; simpl; rewrite E; auto.
Qed.

Lemma dict_get_set_other (d : Dict) k k' v :
  k' <> k -> dict_get (dict_set d k v) k' = dict_get d k'.
Proof.
  intros Hne. induction d as [|[k0 v0] d IH]; simpl.
  - assert (key_eqb k k' = false) as -> by (apply key_eqb_neq; congruence).
    reflexivity.
  - destruct (key_eqb k0 k) eqn:E; simpl.
    + apply key_eqb_eq in E. subst k0.
      assert (key_eqb k k' = false) as -> by (apply key_eqb_neq; congruence).
      reflexivity.
    + destruct (key_eqb k0 k'); auto.
Qed.

Lemma dict_get_None (d : Dict) k :
  dict_get d k = None <-> ~ In k (dict_keys d).
Proof.
  induction d as [|[k' v'] d IH]; simpl.
  - tauto.
  - destruct (key_eqb k' k) eqn:E.
    + apply key_eqb_eq in E. split; [discriminate | tauto].
    + apply key_eqb_neq in E. rewrite IH. tauto.
Qed.

Lemma dict_set_new (d : Dict) k v :
  dict_get d k = None -> dict_set d k v = d ++ [(k, v)].
Proof.
  induction d as [|[k' v'] d IH]; simpl; auto.
  destruct (key_eqb k' k); [discriminate|].
  intros H. now rewrite IH.
Qed.

Lemma dict_keys_set_old (d : Dict) k v a :
  dict_get d k = Some a -> dict_keys (dict_set d k v) = dict_keys d.
Proof.
  unfold dict_keys.
  induction d as [|[k' v'] d IH]; simpl; [discriminate|].
  destruct (key_eqb k' k); simpl; auto.
  intros H. now rewrite IH.
Qed.

Lemma dict_set_set (d : Dict) k v1 v2 :
  dict_set (dict_set d k v1) k v2 = dict_set d k v2.
Proof.
  induction d as [|[k' v'] d IH]; simpl.
  - now rewrite key_eqb_refl.
  - destruct (key_eqb k' k) eqn:E; simpl; rewrite E; congruence.
Qed.

Lemma dict_keys_app (d1 d2 : Dict) :
  dict_keys (d1 ++ d2) = dict_keys d1 ++ dict_keys d2.
Proof. apply map_app. Qed.

Lemma wf_dict_nil : wf_dict [].
Proof. split; constructor. Qed.

Lemma wf_dict_set (d : Dict) s v : wf_dict d -> wf_dict (dict_set d (Some s) v).
Proof.
  intros [Hnd Hall].
  destruct (dict_get d (Some s)) as [a|] eqn:E.
  - unfold wf_dict. rewrite (dict_keys_set_old _ _ _ _ E). now split.
  - rewrite (dict_set_new _ _ _ E). unfold wf_dict.
    rewrite dict_keys_app. simpl. split.
    + apply NoDup_app. repeat split; auto.
      * constructor; [simpl; tauto | constructor].
      * intros k Hk [<-|[]]. now apply dict_get_None in E.
    + apply Forall_app. split; auto. constructor; [discriminate | constructor].
Qed.

Lemma json_load_snoc (ms : Members) s v :
  json_load (ms ++ [(s, v)]) = dict_set (json_load ms) (Some s) v.
Proof. unfold json_load. now rewrite fold_left_app. Qed.

Lemma json_load_wf (ms : Members) : wf_dict (json_load ms).
Proof.
  induction ms as [|[s v] ms IH] using rev_ind.
  - apply wf_dict_nil.
  - rewrite json_load_snoc. now apply wf_dict_set.
Qed.

Lemma json_dump_app (d1 d2 : Dict) :
  json_dump (d1 ++ d2) = json_dump d1 ++ json_dump d2.
Proof. apply map_app. Qed.

(** Reading back what was written gives the dictionary that was written. *)
Lemma json_load_dump (d : Dict) : wf_dict d -> json_load (json_dump d) = d.
Proof.
  induction d as [|[k v] d IH] using rev_ind; intros [Hnd Hall]; auto.
  rewrite dict_keys_app in Hnd, Hall. simpl in Hnd, Hall.
  apply Forall_app in Hall as [Hall Hk].
  apply NoDup_remove in Hnd as [Hnd Hnotin]. rewrite app_nil_r in Hnd, Hnotin.
  destruct k as [s|]; [|inversion Hk; congruence].
  rewrite json_dump_app. simpl. rewrite json_load_snoc.
  rewrite IH by now split.
  apply dict_set_new. now apply dict_get_None.
Qed.

(** Writing [tokens[k] = v] and reading the file back: the record is under
    the member name of [k]. *)
Lemma json_load_dump_set (d : Dict) k v :
  wf_dict d -> json_load (json_dump (dict_set d k v)) = dict_set d (Some (json_key k)) v.
Proof.
  intros Hwf. destruct k as [s|]; simpl.
  - apply json_load_dump. now apply wf_dict_set.
  - assert (dict_get d None = None) as E.
    { apply dict_get_None. intros Hin. destruct Hwf as [_ Hall].
      rewrite Forall_forall in Hall. now apply (Hall None). }
    rewrite (dict_set_new _ _ _ E), json_dump_app. simpl.
    rewrite json_load_snoc. now rewrite json_load_dump.
Qed.

Lemma store_wf (w : World) : wf_dict (store w).
Proof.
  unfold store. destruct (token_file w); [apply json_load_wf | apply wf_dict_nil].
Qed.

Lemma dict_get_Some_in (d : Dict) k a :
  dict_get d k = Some a -> In k (dict_keys d).
Proof.
  induction d as [|[k' v'] d IH]; simpl; [discriminate|].
  destruct (key_eqb k' k) eqn:E.
  - apply key_eqb_eq in E. auto.
  - auto.
Qed.

Lemma wf_dict_key (d : Dict) k a :
  wf_dict d -> dict_get d k = Some a -> exists s, k = Some s.
Proof.
  intros [_ Hall] Hget. destruct k as [s|]; [eauto|].
  apply dict_get_Some_in in Hget.
  rewrite Forall_forall in Hall. now destruct (Hall None Hget).
Qed.

(** * Token Store *)

Lemma load_tokens_run (w : World) : _load_tokens w = (Val (store w), w).
Proof. unfold _load_tokens, store. now destruct (token_file w). Qed.

Lemma store_nonempty (d : Dict) k a :
  dict_get d k = Some a -> (length d =? 0)%nat = false.
Proof. destruct d; [discriminate | reflexivity]. Qed.

Lemma first_key_run (d : Dict) k a (w : World) :
  dict_get d k = Some a -> first_key d w = (Val (hd None (dict_keys d)), w).
Proof. destruct d as [|[k' v'] d]; [discriminate | reflexivity]. Qed.

Lemma bind_val {A B} (m : M A) (f : A -> M B) (w w' : World) (a : A) :
  m w = (Val a, w') -> bind m f w = f a w'.
Proof. intros H. unfold bind. now rewrite H. Qed.

Lemma bind_raise {A B} (m : M A) (f : A -> M B) (w w' : World) (e : PyExn) :
  m w = (Raise e, w') -> bind m f w = (Raise e, w').
Proof. intros H. unfold bind. now rewrite H. Qed.

Lemma bind_ret {A B} (a : A) (f : A -> M B) : bind (ret a) f = f a.
Proof. reflexivity. Qed.

(** The resolver up to the freshness check, on an account it finds. *)
Lemma get_access_token_found (w : World) (email : option string) (r : Account) :
  dict_get (store w) (resolved (store w) email) = Some r ->
  get_access_token email w =
    if clock w >=? expires_at r - 300 then
      (new_token <- _refresh_token (resolved (store w) email) r ;;
       if truthy new_token then ret new_token else ret None) w
    else (Val (Some (access_token r)), w).
Proof.
  intros Hget. unfold get_access_token.
  rewrite (bind_val _ _ _ _ _ (load_tokens_run w)).
  rewrite (store_nonempty _ _ _ Hget).
  assert ((match email with
           | None => first_key (store w)
           | Some _ => ret email
           end) w = (Val (resolved (store w) email), w)) as Hem.
  { destruct email; [reflexivity|]. now rewrite (first_key_run _ _ _ _ Hget). }
  rewrite (bind_val _ _ _ _ _ Hem).
  unfold dict_mem, dict_subscript. rewrite Hget. cbn [negb].
  rewrite bind_ret.
  rewrite (bind_val _ _ w w (clock w)) by reflexivity.
  destruct (clock w >=? expires_at r - 300); reflexivity.
Qed.

(** C2: a record whose [expires_at] is more than 300 seconds ahead of the
    clock is served from the store: the resolver returns its cached
    [access_token] and the world is the one it started in, so no request
    was sent (the refresh count is the same) and the file was not written. *)
Theorem C2_fresh_token_is_served_from_the_store
    (w : World) (email : option string) (r : Account) :
  dict_get (store w) (resolved (store w) email) = Some r ->
  clock w + 300 < expires_at r ->
  get_access_token email w = (Val (Some (access_token r)), w) /\
  refresh_calls (trace (snd (get_access_token email w))) = refresh_calls (trace w) /\
  token_file (snd (get_access_token email w)) = token_file w.
Proof.
  intros Hget Hfresh.
  assert (get_access_token email w = (Val (Some (access_token r)), w)) as E.
  { rewrite (get_access_token_found _ _ _ Hget).
    destruct (Z.geb_spec (clock w) (expires_at r - 300)); [lia | reflexivity]. }
  rewrite E. auto.
Qed.

(** * Token Refresh *)

(** What [_refresh_token] does, case by case. *)
Lemma refresh_token_run (w : World) (email : Key) (account_data : Account) :
  _refresh_token email account_data w =
    let r := server w (sent w) in
    let w1 := after_reply (refresh_request account_data) w in
    if status_code r =? 200 then
      match j_access_token (json r) with
      | None => (Raise (KeyError (Some "access_token")), w1)
      | Some a =>
          match dict_get (store w) email with
          | None => (Raise (KeyError email), w1)
          | Some old =>
              match j_expires_in (json r) with
              | None => (Raise (KeyError (Some "expires_in")), w1)
              | Some n =>
                  (Val (Some a),
                   after_save
                     (dict_set (store w) email
                        (refreshed old a (clock w1 + n) (j_refresh_token (json r))))
                     w1)
              end
          end
      end
    else (Val None, log (Echo true (MRefreshFailed (text r))) w1).
Proof.
  cbv zeta. unfold _refresh_token.
  rewrite (bind_val _ _ w (after_reply (refresh_request account_data) w)
             (server w (sent w))) by reflexivity.
  destruct (status_code (server w (sent w)) =? 200); [|reflexivity].
  set (w1 := after_reply (refresh_request account_data) w).
  assert (store w1 = store w) as Hst by reflexivity.
  rewrite (bind_val _ _ _ _ _ (load_tokens_run w1)). rewrite Hst.
  destruct (j_access_token (json (server w (sent w)))) as [a|]; [|reflexivity].
  cbn [subscript]. rewrite bind_ret.
  unfold update_account at 1, dict_subscript.
  destruct (dict_get (store w) email) as [old|] eqn:Hold; [|reflexivity].
  rewrite !bind_ret.
  rewrite (bind_val _ _ w1 w1 (clock w1)) by reflexivity.
  destruct (j_expires_in (json (server w (sent w)))) as [n|]; [|reflexivity].
  cbn [subscript]. rewrite bind_ret.
  unfold update_account at 1, dict_subscript. rewrite dict_get_set_same.
  rewrite !bind_ret, dict_set_set.
  destruct (j_refresh_token (json (server w (sent w)))) as [rt|].
  - unfold update_account, dict_subscript. rewrite dict_get_set_same.
    rewrite !bind_ret, dict_set_set. reflexivity.
  - rewrite bind_ret. destruct old; reflexivity.
Qed.

Lemma filter_length_app {A} (p : A -> bool) (l1 l2 : list A) :
  length (filter p (l1 ++ l2)) = (length (filter p l1) + length (filter p l2))%nat.
Proof. now rewrite filter_app, length_app. Qed.

Lemma refresh_token_failed (w : World) (email : Key) (account_data : Account) :
  status_code (server w (sent w)) <> 200 ->
  _refresh_token email account_data w =
    (Val None,
     log (Echo true (MRefreshFailed (text (server w (sent w)))))
         (after_reply (refresh_request account_data) w)).
Proof.
  intros Hst. rewrite refresh_token_run. cbv zeta.
  apply Z.eqb_neq in Hst. now rewrite Hst.
Qed.

Lemma store_after_save (d : Dict) (k : Key) (v : Account) (w : World) :
  wf_dict d ->
  store (after_save (dict_set d k v) w) = dict_set d (Some (json_key k)) v.
Proof.
  intros Hwf. unfold store, after_save. cbn [token_file].
  now apply json_load_dump_set.
Qed.

(** C4: when the token endpoint answers a refresh with a status other
    than 200, [_refresh_token] returns [None] (its failure signal), the
    token file holds exactly the members it held before, no write was made,
    and all that happened is the request and the failure message. *)
Theorem C4_failed_refresh_leaves_the_file_untouched
    (w : World) (email : Key) (account_data : Account) :
  status_code (server w (sent w)) <> 200 ->
  fst (_refresh_token email account_data w) = Val None /\
  token_file (snd (_refresh_token email account_data w)) = token_file w /\
  writes (trace (snd (_refresh_token email account_data w))) = writes (trace w) /\
  trace (snd (_refresh_token email account_data w)) =
    trace w ++ [refresh_request account_data;
                Echo true (MRefreshFailed (text (server w (sent w))))].
Proof.
  intros Hst. rewrite (refresh_token_failed _ _ _ Hst). cbn [fst snd].
  unfold log, after_reply. cbn [token_file trace].
  repeat split.
  - unfold writes. rewrite <- app_assoc, filter_length_app. simpl. lia.
  - now rewrite <- app_assoc.
Qed.

(** C3: when the token endpoint answers a refresh with status 200 and a
    body holding [access_token] and [expires_in], [_refresh_token] returns
    the new access token and the store read back from the file is the old
    one with the record of [email] replaced: [access_token] is the new
    one, [expires_at] is the clock plus [expires_in], [refresh_token] is
    the one of the response when it has one and the old one otherwise,
    [client_id], [tenant] and [user_info] are the old ones; every other
    key has the record it had, and the keys keep their order. *)
Theorem C3_successful_refresh_updates_one_record
    (w : World) (email : Key) (account_data old : Account) (a : string) (n : Z) :
  dict_get (store w) email = Some old ->
  status_code (server w (sent w)) = 200 ->
  j_access_token (json (server w (sent w))) = Some a ->
  j_expires_in (json (server w (sent w))) = Some n ->
  let out := _refresh_token email account_data w in
  let new := mkAccount (client_id old) (tenant old) a
               (match j_refresh_token (json (server w (sent w))) with
                | Some rt => rt
                | None => refresh_token old
                end)
               (clock (snd out) + n) (user_info old) in
  fst out = Val (Some a) /\
  store (snd out) = dict_set (store w) email new /\
  dict_get (store (snd out)) email = Some new /\
  (forall k, k <> email -> dict_get (store (snd out)) k = dict_get (store w) k) /\
  dict_keys (store (snd out)) = dict_keys (store w).
Proof.
  intros Hold Hst Ha Hn. cbv zeta.
  rewrite refresh_token_run. cbv zeta.
  rewrite Hst, Ha, Hold, Hn. cbn [Z.eqb Pos.eqb fst snd].
  destruct (wf_dict_key _ _ _ (store_wf w) Hold) as [s ->].
  rewrite store_after_save by apply store_wf.
  unfold refreshed. cbn [clock after_save json_key].
  split; [reflexivity|]. split; [reflexivity|].
  split; [apply dict_get_set_same|].
  split; [intros k Hk; now apply dict_get_set_other|].
  eapply dict_keys_set_old; eassumption.
Qed.

(** * Credential Resolver *)

Lemma get_access_token_empty (w : World) (email : option string) :
  store w = [] ->
  get_access_token email w = (Val None, log (Echo true MNotAuthenticated) w).
Proof.
  intros He. unfold get_access_token.
  rewrite (bind_val _ _ _ _ _ (load_tokens_run w)). rewrite He. reflexivity.
Qed.

Lemma get_access_token_missing (w : World) (email : option string) :
  store w <> [] ->
  dict_get (store w) (resolved (store w) email) = None ->
  get_access_token email w =
    (Val None, log (Echo true (MAccountNotFound (resolved (store w) email))) w).
Proof.
  intros Hne Hget. unfold get_access_token.
  rewrite (bind_val _ _ _ _ _ (load_tokens_run w)).
  destruct (store w) as [|[k v] d] eqn:Es; [congruence|].
  cbn [length Nat.eqb].
  assert ((match email with
           | None => first_key ((k, v) :: d)
           | Some _ => ret email
           end) w = (Val (resolved ((k, v) :: d) email), w)) as Hem.
  { destruct email; reflexivity. }
  rewrite (bind_val _ _ _ _ _ Hem).
  unfold dict_mem. rewrite Hget. reflexivity.
Qed.

(** C8: on an empty store the resolver returns [None] after the
    not-authenticated message; asked for an email that has no record in a
    non-empty store it returns [None] after the account-not-found message.
    In both cases nothing else happens: the token file is the same and no
    request is sent. *)
Theorem C8_empty_store_and_unknown_account (w : World) :
  (store w = [] ->
   forall email,
     get_access_token email w = (Val None, log (Echo true MNotAuthenticated) w) /\
     fails_with NotAuthenticated (get_access_token email w) /\
     token_file (snd (get_access_token email w)) = token_file w) /\
  (store w <> [] ->
   forall e,
     dict_get (store w) (Some e) = None ->
     get_access_token (Some e) w =
       (Val None, log (Echo true (MAccountNotFound (Some e))) w) /\
     fails_with AccountNotFound (get_access_token (Some e) w) /\
     token_file (snd (get_access_token (Some e) w)) = token_file w).
Proof.
  split.
  - intros He email. rewrite (get_access_token_empty _ _ He).
    repeat split. exists (trace w), MNotAuthenticated. now split.
  - intros Hne e Hget.
    rewrite (get_access_token_missing w (Some e) Hne Hget).
    repeat split. exists (trace w), (MAccountNotFound (Some e)). now split.
Qed.

(** Every run of [_refresh_token] sends its token request first, and
    sends no second one. *)
Lemma refresh_token_trace (w : World) (email : Key) (account_data : Account) :
  exists post,
    trace (snd (_refresh_token email account_data w)) =
      trace w ++ refresh_request account_data :: post /\
    refresh_calls post = 0%nat.
Proof.
  rewrite refresh_token_run. cbv zeta.
  destruct (status_code (server w (sent w)) =? 200).
  - destruct (j_access_token _); [|exists []; split; [reflexivity|reflexivity]].
    destruct (dict_get _ _); [|exists []; split; reflexivity].
    destruct (j_expires_in _); [|exists []; split; reflexivity].
    eexists. cbn [snd after_save trace after_reply].
    rewrite <- app_assoc. split; reflexivity.
  - eexists. cbn [snd log trace after_reply].
    rewrite <- app_assoc. split; reflexivity.
Qed.

Lemma refresh_calls_app (t1 t2 : list Event) :
  refresh_calls (t1 ++ t2) = (refresh_calls t1 + refresh_calls t2)%nat.
Proof. apply filter_length_app. Qed.

Lemma refresh_calls_request (a : Account) (post : list Event) :
  refresh_calls (refresh_request a :: post) = S (refresh_calls post).
Proof. reflexivity. Qed.

(** Passing a refreshed token through the truthiness test changes no
    world. *)
Lemma snd_bind_truthy (m : M (option string)) (w : World) :
  snd ((new_token <- m ;; if truthy new_token then ret new_token else ret None) w)
  = snd (m w).
Proof.
  unfold bind. destruct (m w) as [[t|e|] w']; try reflexivity.
  now destruct (truthy t).
Qed.

Lemma fst_bind_truthy_None (m : M (option string)) (w : World) :
  fst (m w) = Val None ->
  fst ((new_token <- m ;; if truthy new_token then ret new_token else ret None) w)
  = Val None.
Proof.
  unfold bind. destruct (m w) as [[t|e|] w']; simpl; try congruence.
  intros [= ->]. reflexivity.
Qed.

(** C1: for a record whose [expires_at] is at most 300 seconds ahead of
    the clock (or already past), the resolver runs [_refresh_token] on
    that record: its token request is the first thing that happens, and
    the run contains exactly one refresh request more than before.  When
    the endpoint answers that request with a status other than 200, the
    resolver fails with [RefreshFailed]: it returns [None], so not the
    cached access token, and the token file is as it was. *)
Theorem C1_stale_token_is_refreshed_exactly_once
    (w : World) (email : option string) (r : Account) :
  dict_get (store w) (resolved (store w) email) = Some r ->
  expires_at r - 300 <= clock w ->
  let out := get_access_token email w in
  snd out = snd (_refresh_token (resolved (store w) email) r w) /\
  (exists post, trace (snd out) = trace w ++ refresh_request r :: post) /\
  refresh_calls (trace (snd out)) = S (refresh_calls (trace w)) /\
  (status_code (server w (sent w)) <> 200 ->
   fails_with RefreshFailed out /\
   fst out <> Val (Some (access_token r)) /\
   token_file (snd out) = token_file w).
Proof.
  intros Hget Hstale. cbv zeta.
  rewrite (get_access_token_found _ _ _ Hget).
  destruct (Z.geb_spec (clock w) (expires_at r - 300)) as [_|]; [|lia].
  rewrite snd_bind_truthy.
  destruct (refresh_token_trace w (resolved (store w) email) r) as (post & Ht & Hc).
  split; [reflexivity|]. split; [eauto|]. split.
  - rewrite Ht, refresh_calls_app, refresh_calls_request, Hc. lia.
  - intros Hst.
    pose proof (refresh_token_failed w (resolved (store w) email) r Hst) as Hrun.
    assert (fst (_refresh_token (resolved (store w) email) r w) = Val None)
      as Hr by now rewrite Hrun.
    assert (fst ((new_token <- _refresh_token (resolved (store w) email) r ;;
                  if truthy new_token then ret new_token else ret None) w)
            = Val None) as Hnone by now apply fst_bind_truthy_None.
    split; [|split].
    + split; [exact Hnone|]. rewrite snd_bind_truthy, Hrun.
      exists (trace w ++ [refresh_request r]),
             (MRefreshFailed (text (server w (sent w)))).
      split; reflexivity.
    + rewrite Hnone. discriminate.
    + now rewrite Hrun.
Qed.

Lemma resolved_keys (d d' : Dict) (email : option string) :
  dict_keys d' = dict_keys d -> resolved d' email = resolved d email.
Proof. intros H. destruct email; simpl; [reflexivity | now rewrite H]. Qed.

(** C10: a token the resolver returns is the [access_token] stored, at
    that moment, under the account it resolved: the cached one when the
    record was fresh, the one just written when it was refreshed. *)
Theorem C10_returned_token_is_the_stored_one
    (w w' : World) (email : option string) (tok : string) :
  get_access_token email w = (Val (Some tok), w') ->
  resolved (store w') email = resolved (store w) email /\
  exists a, dict_get (store w') (resolved (store w') email) = Some a /\
            access_token a = tok.
Proof.
  intros Hrun.
  destruct (store w) as [|kv d] eqn:Es.
  { rewrite (get_access_token_empty _ _ Es) in Hrun. discriminate. }
  assert (store w <> []) as Hne by (rewrite Es; discriminate).
  rewrite <- Es in *. clear Es kv d.
  destruct (dict_get (store w) (resolved (store w) email)) as [r|] eqn:Hget.
  2:{ rewrite (get_access_token_missing _ _ Hne Hget) in Hrun. discriminate. }
  rewrite (get_access_token_found _ _ _ Hget) in Hrun.
  destruct (clock w >=? expires_at r - 300).
  - unfold bind in Hrun. rewrite refresh_token_run in Hrun. cbv zeta in Hrun.
    rewrite Hget in Hrun.
    destruct (status_code (server w (sent w)) =? 200); [|discriminate].
    destruct (j_access_token _) as [a|]; [|discriminate].
    destruct (j_expires_in _) as [n|]; [|discriminate].
    destruct (truthy (Some a)); [|discriminate].
    injection Hrun as <- <-.
    destruct (wf_dict_key _ _ _ (store_wf w) Hget) as [s Hs].
    set (new := refreshed r a _ _).
    assert (store (after_save (dict_set (store w) (resolved (store w) email) new)
                     (after_reply (refresh_request r) w))
            = dict_set (store w) (resolved (store w) email) new) as Est.
    { rewrite store_after_save by apply store_wf. now rewrite Hs. }
    rewrite Est.
    assert (resolved (dict_set (store w) (resolved (store w) email) new) email
            = resolved (store w) email) as Hres.
    { apply resolved_keys. eapply dict_keys_set_old; eassumption. }
    rewrite Hres. split; [reflexivity|].
    rewrite dict_get_set_same. exists new. split; reflexivity.
  - injection Hrun as <- <-. split; [reflexivity|]. eauto.
Qed.

(** * Device Authorization Flow *)

Lemma get_user_info_run (access_token : string) (w : World) :
  _get_user_info access_token w =
    (Val (profile_of (server w (sent w))),
     after_reply (profile_request access_token) w).
Proof.
  unfold _get_user_info, profile_of.
  rewrite (bind_val _ _ w (after_reply (profile_request access_token) w)
             (server w (sent w))) by reflexivity.
  now destruct (status_code (server w (sent w)) =? 200).
Qed.

(** One turn of the polling loop, case by case. *)
Lemma poll_loop_step (fuel : nat) (cid ten dc : string)
    (interval expires_in start_time : Z) (w : World) :
  poll_loop (S fuel) cid ten dc interval expires_in start_time w =
    if clock w - start_time <? expires_in then
      if interval <? 0 then (Raise ValueError, w)
      else
        let r := server w (sent w) in
        let w2 := after_reply (poll_request cid ten dc) (slept interval w) in
        if status_code r =? 200 then
          match j_access_token (json r) with
          | None => (Raise (KeyError (Some "access_token")), w2)
          | Some a =>
              let ui := profile_of (server w (S (sent w))) in
              let w3 := after_reply (profile_request a) w2 in
              match j_refresh_token (json r) with
              | None => (Raise (KeyError (Some "refresh_token")), w3)
              | Some rt =>
                  match j_expires_in (json r) with
                  | None => (Raise (KeyError (Some "expires_in")), w3)
                  | Some n =>
                      (Val true,
                       log (Echo false (MSuccess (identity_of ui)))
                         (after_save
                            (dict_set (store w) (identity_of ui)
                               (mkAccount cid ten a rt (clock w3 + n) ui))
                            w3))
                  end
              end
          end
        else if error_is (json r) "authorization_pending" then
          poll_loop fuel cid ten dc interval expires_in start_time
            (log (Echo false MDot) w2)
        else if error_is (json r) "authorization_declined" then
          (Val false, log (Echo false MDeclined) w2)
        else if error_is (json r) "expired_token" then
          (Val false, log (Echo false MExpired) w2)
        else
          (Val false, log (Echo true (MErrorPayload (json r))) w2)
    else (Val false, log (Echo false MTimeout) w).
Proof.
  cbv zeta. cbn [poll_loop].
  rewrite (bind_val _ _ w w (clock w)) by reflexivity.
  destruct (clock w - start_time <? expires_in); [|reflexivity].
  unfold time_sleep at 1.
  destruct (interval <? 0); [reflexivity|].
  rewrite (bind_val _ _ w (slept interval w) tt) by reflexivity.
  set (w1 := slept interval w).
  set (w2 := after_reply (poll_request cid ten dc) w1).
  rewrite (bind_val _ _ w1 w2 (server w (sent w))) by reflexivity.
  destruct (status_code (server w (sent w)) =? 200).
  - destruct (j_access_token (json (server w (sent w)))) as [a|]; [|reflexivity].
    cbn [subscript]. rewrite bind_ret.
    rewrite (bind_val _ _ _ _ _ (get_user_info_run a w2)).
    set (w3 := after_reply (profile_request a) w2).
    rewrite (bind_val _ _ _ _ _ (load_tokens_run w3)).
    destruct (j_refresh_token (json (server w (sent w)))) as [rt|]; [|reflexivity].
    cbn [subscript]. rewrite bind_ret.
    rewrite (bind_val _ _ w3 w3 (clock w3)) by reflexivity.
    destruct (j_expires_in (json (server w (sent w)))) as [n|]; reflexivity.
  - destruct (error_is _ "authorization_pending").
    + now rewrite (bind_val _ _ w2 (log (Echo false MDot) w2) tt).
    + destruct (error_is _ "authorization_declined"); [reflexivity|].
      destruct (error_is _ "expired_token"); reflexivity.
Qed.

Lemma ltb_elapsed (start_time expires_in : Z) (w : World) :
  elapsed start_time w < expires_in -> (clock w - start_time <? expires_in) = true.
Proof. unfold elapsed. intros H. now apply Z.ltb_lt. Qed.

Lemma ltb_interval (interval : Z) : 0 <= interval -> (interval <? 0) = false.
Proof. intros H. apply Z.ltb_ge. exact H. Qed.

(** A poll that is answered with status 200 and a complete token body. *)
Lemma poll_success_run (fuel : nat) (cid ten dc : string)
    (interval expires_in start_time : Z) (w : World) (a rt : string) (n : Z) :
  elapsed start_time w < expires_in ->
  0 <= interval ->
  status_code (server w (sent w)) = 200 ->
  j_access_token (json (server w (sent w))) = Some a ->
  j_refresh_token (json (server w (sent w))) = Some rt ->
  j_expires_in (json (server w (sent w))) = Some n ->
  poll_loop (S fuel) cid ten dc interval expires_in start_time w =
    let ui := profile_of (server w (S (sent w))) in
    let w3 := after_reply (profile_request a)
                (after_reply (poll_request cid ten dc) (slept interval w)) in
    (Val true,
     log (Echo false (MSuccess (identity_of ui)))
       (after_save
          (dict_set (store w) (identity_of ui)
             (mkAccount cid ten a rt (clock w3 + n) ui))
          w3)).
Proof.
  intros Ht Hi Hs Ha Hr Hn. rewrite poll_loop_step. cbv zeta.
  rewrite (ltb_elapsed _ _ _ Ht), (ltb_interval _ Hi), Hs, Ha, Hr, Hn.
  reflexivity.
Qed.

Lemma py_or_mail (m : string) (upn : option string) :
  m <> "" -> py_or (Some m) upn = Some m.
Proof.
  intros Hm. unfold py_or, truthy.
  destruct (String.eqb_spec m ""); [contradiction | reflexivity].
Qed.

(** C5: a poll answered with status 200 and a token body
    ([access_token], [refresh_token], [expires_in]) makes the flow fetch
    the profile once, with the fresh access token as bearer; the identity
    is the profile's [mail] when that is a non-empty string and its
    [userPrincipalName] when [mail] is absent (or empty); the record
    written holds the login's [client_id] and [tenant], the new tokens,
    [expires_at] = clock + [expires_in] and the profile, and it is the
    whole record under the identity's member name, whatever was there
    before; every other key keeps its record; the flow returns [True] after
    the success message, i.e. ends in [AUTHENTICATED]. *)
Theorem C5_successful_poll_stores_the_account
    (fuel : nat) (cid ten dc : string) (interval expires_in start_time : Z)
    (w : World) (a rt : string) (n : Z) :
  elapsed start_time w < expires_in ->
  0 <= interval ->
  status_code (server w (sent w)) = 200 ->
  j_access_token (json (server w (sent w))) = Some a ->
  j_refresh_token (json (server w (sent w))) = Some rt ->
  j_expires_in (json (server w (sent w))) = Some n ->
  let out := poll_loop (S fuel) cid ten dc interval expires_in start_time w in
  let ui := profile_of (server w (S (sent w))) in
  let key := identity_of ui in
  let new := mkAccount cid ten a rt (clock (snd out) + n) ui in
  trace (snd out) =
    trace w ++ [Sleep interval; poll_request cid ten dc; profile_request a;
                WriteTokens (json_dump (dict_set (store w) key new)); Chmod 384;
                Echo false (MSuccess key)] /\
  (forall m, j_mail ui = Some m -> m <> "" -> key = Some m) /\
  (j_mail ui = None \/ j_mail ui = Some "" -> key = j_userPrincipalName ui) /\
  token_file (snd out) = Some (json_dump (dict_set (store w) key new)) /\
  store (snd out) = dict_set (store w) (Some (json_key key)) new /\
  dict_get (store (snd out)) (Some (json_key key)) = Some new /\
  (forall k, k <> Some (json_key key) ->
             dict_get (store (snd out)) k = dict_get (store w) k) /\
  ends_in AUTHENTICATED out.
Proof.
  intros Ht Hi Hs Ha Hr Hn. cbv zeta.
  rewrite (poll_success_run fuel cid ten dc _ _ _ _ _ _ _ Ht Hi Hs Ha Hr Hn).
  cbv zeta. cbn [snd fst].
  set (ui := profile_of (server w (S (sent w)))).
  set (w3 := after_reply (profile_request a) _).
  set (new := mkAccount cid ten a rt _ ui).
  assert (store (log (Echo false (MSuccess (identity_of ui)))
                   (after_save (dict_set (store w) (identity_of ui) new) w3))
          = dict_set (store w) (Some (json_key (identity_of ui))) new) as Est.
  { change (store (log (Echo false (MSuccess (identity_of ui)))
                     (after_save (dict_set (store w) (identity_of ui) new) w3)))
      with (store (after_save (dict_set (store w) (identity_of ui) new) w3)).
    apply store_after_save, store_wf. }
  rewrite Est.
  split; [|split; [|split; [|split; [|split; [|split; [|split]]]]]].
  - unfold log, after_save, w3, after_reply, slept. cbn [trace].
    now rewrite <- !app_assoc.
  - intros m Hm Hne. unfold identity_of. rewrite Hm. now apply py_or_mail.
  - intros [Hm|Hm]; unfold identity_of; now rewrite Hm.
  - reflexivity.
  - reflexivity.
  - apply dict_get_set_same.
  - intros k Hk. now apply dict_get_set_other.
  - split.
    + exists true. split; [reflexivity | tauto].
    + eexists. eexists. split; [reflexivity|]. reflexivity.
Qed.

(** C9: when the token exchange succeeds but the profile endpoint answers
    with a status other than 200, or with a profile that has neither
    [mail] nor [userPrincipalName], the identity derived is [None]; the
    flow nevertheless returns [True] after the success message, and the
    dictionary it saves holds the new record under the key [None].  In the
    file that key is the member name [null], which is the key the record
    has when the store is read back. *)
Theorem C9_login_without_identity_stores_under_None
    (fuel : nat) (cid ten dc : string) (interval expires_in start_time : Z)
    (w : World) (a rt : string) (n : Z) :
  elapsed start_time w < expires_in ->
  0 <= interval ->
  status_code (server w (sent w)) = 200 ->
  j_access_token (json (server w (sent w))) = Some a ->
  j_refresh_token (json (server w (sent w))) = Some rt ->
  j_expires_in (json (server w (sent w))) = Some n ->
  status_code (server w (S (sent w))) <> 200 \/
  (j_mail (json (server w (S (sent w)))) = None /\
   j_userPrincipalName (json (server w (S (sent w)))) = None) ->
  let out := poll_loop (S fuel) cid ten dc interval expires_in start_time w in
  let ui := profile_of (server w (S (sent w))) in
  let new := mkAccount cid ten a rt (clock (snd out) + n) ui in
  identity_of ui = None /\
  fst out = Val true /\
  ends_in AUTHENTICATED out /\
  token_file (snd out) = Some (json_dump (dict_set (store w) None new)) /\
  dict_get (dict_set (store w) None new) None = Some new /\
  In ("null", new) (json_dump (dict_set (store w) None new)) /\
  dict_get (store (snd out)) (Some "null") = Some new.
Proof.
  intros Ht Hi Hs Ha Hr Hn Hp. cbv zeta.
  rewrite (poll_success_run fuel cid ten dc _ _ _ _ _ _ _ Ht Hi Hs Ha Hr Hn).
  cbv zeta. cbn [snd fst].
  set (ui := profile_of (server w (S (sent w)))).
  assert (identity_of ui = None) as Hid.
  { unfold ui, profile_of, identity_of.
    destruct Hp as [Hp|[Hm Hu]].
    - apply Z.eqb_neq in Hp. now rewrite Hp.
    - destruct (status_code (server w (S (sent w))) =? 200); [|reflexivity].
      now rewrite Hm, Hu. }
  rewrite Hid.
  set (w3 := after_reply (profile_request a) _).
  set (new := mkAccount cid ten a rt _ ui).
  assert (dict_get (store w) None = None) as Hnone.
  { destruct (dict_get (store w) None) as [x|] eqn:E; [|reflexivity].
    destruct (wf_dict_key _ _ _ (store_wf w) E) as [s Hs']. discriminate. }
  split; [reflexivity|]. split; [reflexivity|]. split.
  { split.
    - exists true. split; [reflexivity | tauto].
    - eexists. eexists. split; reflexivity. }
  split; [reflexivity|]. split; [apply dict_get_set_same|]. split.
  - rewrite (dict_set_new _ _ _ Hnone), json_dump_app.
    apply in_or_app. right. now left.
  - change (store (log (Echo false (MSuccess None))
                     (after_save (dict_set (store w) None new) w3)))
      with (store (after_save (dict_set (store w) None new) w3)).
    rewrite store_after_save by apply store_wf.
    apply dict_get_set_same.
Qed.

(** The trace only grows along the polling loop. *)
Lemma poll_loop_trace (fuel : nat) (cid ten dc : string)
    (interval expires_in start_time : Z) (w : World) :
  exists post,
    trace (snd (poll_loop fuel cid ten dc interval expires_in start_time w))
    = trace w ++ post.
Proof.
  revert w. induction fuel as [|fuel IH]; intros w.
  - exists []. cbn. now rewrite app_nil_r.
  - rewrite poll_loop_step. cbv zeta.
    destruct (clock w - start_time <? expires_in);
      [|eexists; cbn [snd log trace]; reflexivity].
    destruct (interval <? 0); [exists []; cbn; now rewrite app_nil_r|].
    destruct (status_code (server w (sent w)) =? 200).
    + destruct (j_access_token _);
        [|eexists; cbn [snd after_reply slept trace];
          rewrite <- app_assoc; reflexivity].
      destruct (j_refresh_token _);
        [|eexists; cbn [snd after_reply slept trace];
          rewrite <- !app_assoc; reflexivity].
      destruct (j_expires_in _);
        eexists; cbn [snd log after_save after_reply slept trace];
        rewrite <- !app_assoc; reflexivity.
    + destruct (error_is _ "authorization_pending").
      * destruct (IH (log (Echo false MDot)
                        (after_reply (poll_request cid ten dc) (slept interval w))))
          as [post Hpost].
        rewrite Hpost. eexists. cbn [log after_reply slept trace].
        rewrite <- !app_assoc. reflexivity.
      * destruct (error_is _ "authorization_declined");
          [eexists; cbn [snd log after_reply slept trace];
           rewrite <- !app_assoc; reflexivity|].
        destruct (error_is _ "expired_token");
          eexists; cbn [snd log after_reply slept trace];
          rewrite <- !app_assoc; reflexivity.
Qed.

(** A turn of the loop that is entered in time, with a non-negative
    interval, sleeps and sends its token request. *)
Lemma poll_loop_polls (fuel : nat) (cid ten dc : string)
    (interval expires_in start_time : Z) (w : World) :
  elapsed start_time w < expires_in ->
  0 <= interval ->
  exists post,
    trace (snd (poll_loop (S fuel) cid ten dc interval expires_in start_time w))
    = trace w ++ [Sleep interval; poll_request cid ten dc] ++ post.
Proof.
  intros Ht Hi. rewrite poll_loop_step. cbv zeta.
  rewrite (ltb_elapsed _ _ _ Ht), (ltb_interval _ Hi).
  destruct (status_code (server w (sent w)) =? 200).
  - destruct (j_access_token _);
      [|exists []; cbn [snd after_reply slept trace];
        rewrite <- app_assoc; reflexivity].
    destruct (j_refresh_token _);
      [|eexists; cbn [snd after_reply slept trace];
        rewrite <- !app_assoc; reflexivity].
    destruct (j_expires_in _);
      eexists; cbn [snd log after_save after_reply slept trace];
      rewrite <- !app_assoc; reflexivity.
  - destruct (error_is _ "authorization_pending").
    + destruct (poll_loop_trace fuel cid ten dc interval expires_in start_time
                  (log (Echo false MDot)
                     (after_reply (poll_request cid ten dc) (slept interval w))))
        as [post Hpost].
      rewrite Hpost. eexists. cbn [log after_reply slept trace].
      rewrite <- !app_assoc. reflexivity.
    + destruct (error_is _ "authorization_declined");
        [eexists; cbn [snd log after_reply slept trace];
         rewrite <- !app_assoc; reflexivity|].
      destruct (error_is _ "expired_token");
        eexists; cbn [snd log after_reply slept trace];
        rewrite <- !app_assoc; reflexivity.
Qed.

Lemma error_is_true (j : Json) (name : string) :
  j_error j = Some name -> error_is j name = true.
Proof. unfold error_is. intros ->. apply String.eqb_refl. Qed.

Lemma error_is_false (j : Json) (name : string) :
  j_error j <> Some name -> error_is j name = false.
Proof.
  unfold error_is. destruct (j_error j) as [e|]; [|reflexivity].
  intros H. destruct (String.eqb_spec e name); [congruence | reflexivity].
Qed.

Lemma ends_in_failure (s : FlowState) (e : Event) (w : World) :
  terminal_state e = Some s -> s <> AUTHENTICATED ->
  ends_in s (Val false, mkWorld (token_file w) (clock w) (server w) (sent w)
                                (trace w ++ [e])).
Proof.
  intros He Hs. split.
  - exists false. split; [reflexivity|]. split; [discriminate | congruence].
  - exists (trace w), e. now split.
Qed.

(** C6: a poll answered with a status other than 200.
    - [authorization_pending]: a dot is printed and the loop goes round
      again from the world reached; when that world is still in time, the
      next turn sleeps and polls again.
    - [authorization_declined]: the flow returns [False] after the
      declined message, i.e. ends in [DECLINED].
    - [expired_token]: it returns [False] after the expired message, i.e.
      ends in [EXPIRED].
    - anything else (another code, or none): it returns [False] after
      printing the error payload on the error stream, i.e. ends in
      [REQUEST_FAILED].
    The turn itself never writes the token file: after it the file holds
    what it held and the number of writes is the same. *)
Theorem C6_error_codes_of_a_poll
    (fuel : nat) (cid ten dc : string) (interval expires_in start_time : Z)
    (w : World) :
  elapsed start_time w < expires_in ->
  0 <= interval ->
  status_code (server w (sent w)) <> 200 ->
  let r := server w (sent w) in
  let w2 := after_reply (poll_request cid ten dc) (slept interval w) in
  let out := poll_loop (S fuel) cid ten dc interval expires_in start_time w in
  (j_error (json r) = Some "authorization_pending" ->
   out = poll_loop fuel cid ten dc interval expires_in start_time
           (log (Echo false MDot) w2) /\
   token_file (log (Echo false MDot) w2) = token_file w /\
   writes (trace (log (Echo false MDot) w2)) = writes (trace w) /\
   (elapsed start_time (log (Echo false MDot) w2) < expires_in ->
    forall fuel', exists post,
      trace (snd (poll_loop (S fuel') cid ten dc interval expires_in start_time
                    (log (Echo false MDot) w2)))
      = trace (log (Echo false MDot) w2)
        ++ [Sleep interval; poll_request cid ten dc] ++ post)) /\
  (j_error (json r) = Some "authorization_declined" ->
   out = (Val false, log (Echo false MDeclined) w2) /\ ends_in DECLINED out) /\
  (j_error (json r) = Some "expired_token" ->
   out = (Val false, log (Echo false MExpired) w2) /\ ends_in EXPIRED out) /\
  (j_error (json r) <> Some "authorization_pending" ->
   j_error (json r) <> Some "authorization_declined" ->
   j_error (json r) <> Some "expired_token" ->
   out = (Val false, log (Echo true (MErrorPayload (json r))) w2) /\
   ends_in REQUEST_FAILED out) /\
  (j_error (json r) <> Some "authorization_pending" ->
   fst out = Val false /\
   token_file (snd out) = token_file w /\
   writes (trace (snd out)) = writes (trace w)).
Proof.
  intros Ht Hi Hs. cbv zeta.
  rewrite poll_loop_step. cbv zeta.
  rewrite (ltb_elapsed _ _ _ Ht), (ltb_interval _ Hi).
  apply Z.eqb_neq in Hs. rewrite Hs.
  set (r := server w (sent w)).
  set (w2 := after_reply (poll_request cid ten dc) (slept interval w)).
  assert (forall e, is_write e = false ->
            writes (trace (log e w2)) = writes (trace w)) as Hw.
  { intros e He. unfold writes, log, w2, after_reply, slept. cbn [trace].
    rewrite !filter_length_app. simpl. rewrite He. simpl. lia. }
  split; [|split; [|split; [|split]]].
  - intros He. rewrite (error_is_true _ _ He).
    split; [reflexivity|]. split; [reflexivity|]. split; [now apply Hw|].
    intros Ht' fuel'. now apply poll_loop_polls.
  - intros He. rewrite (error_is_false _ "authorization_pending") by congruence.
    rewrite (error_is_true _ _ He). split; [reflexivity|].
    now apply ends_in_failure.
  - intros He. rewrite (error_is_false _ "authorization_pending") by congruence.
    rewrite (error_is_false _ "authorization_declined") by congruence.
    rewrite (error_is_true _ _ He). split; [reflexivity|].
    now apply ends_in_failure.
  - intros H1 H2 H3. rewrite !error_is_false by assumption.
    split; [reflexivity|]. now apply ends_in_failure.
  - intros H1. rewrite (error_is_false _ _ H1).
    destruct (error_is (json r) "authorization_declined");
      [|destruct (error_is (json r) "expired_token")];
      (split; [reflexivity|]; split; [reflexivity|]; now apply Hw).
Qed.

(** The loop under polls that are all pending, entered at any moment:
    with [fuel] at least the time that remains it runs to its end. *)
Lemma poll_loop_pending (cid ten dc : string) (interval expires_in start_time L : Z)
    (fuel : nat) :
  0 <= interval ->
  forall w : World,
    (forall i, (sent w <= i)%nat -> pending (server w i)) ->
    (forall i, (sent w <= i)%nat ->
       0 < interval + Z.of_nat (latency (server w i)) /\
       Z.of_nat (latency (server w i)) <= L) ->
    expires_in - elapsed start_time w <= Z.of_nat fuel ->
    exists w',
      poll_loop (S fuel) cid ten dc interval expires_in start_time w = (Val false, w') /\
      (exists t, trace w' = t ++ [Echo false MTimeout]) /\
      token_file w' = token_file w /\
      writes (trace w') = writes (trace w) /\
      expires_in <= elapsed start_time w' /\
      (elapsed start_time w' = elapsed start_time w \/
       elapsed start_time w' < expires_in + interval + L).
Proof.
  intros Hi. induction fuel as [|fuel IH]; intros w Hpend Hlat Hfuel;
    rewrite poll_loop_step; cbv zeta;
    destruct (Z.ltb_spec (clock w - start_time) expires_in) as [Hlt|Hge].
  - unfold elapsed in Hfuel. simpl in Hfuel. lia.
  - exists (log (Echo false MTimeout) w). unfold elapsed, log, writes. cbn.
    rewrite filter_length_app. simpl.
    repeat split; eauto; lia.
  - rewrite (ltb_interval _ Hi).
    destruct (Hpend (sent w) (le_n _)) as [Hst Herr].
    destruct (Hlat (sent w) (le_n _)) as [Hpos HL].
    apply Z.eqb_neq in Hst. rewrite Hst, (error_is_true _ _ Herr).
    set (w2 := log (Echo false MDot)
                 (after_reply (poll_request cid ten dc) (slept interval w))).
    assert (clock w2 = clock w + interval + Z.of_nat (latency (server w (sent w))))
      as Hclock by reflexivity.
    destruct (IH w2) as (w' & Hrun & Hlast & Hfile & Hwr & Hexit & Hbound).
    + intros i Hle. apply (Hpend i). cbn in Hle. lia.
    + intros i Hle. apply (Hlat i). cbn in Hle. lia.
    + unfold elapsed in *. rewrite Hclock. lia.
    + exists w'. split; [exact Hrun|]. split; [exact Hlast|].
      split; [exact Hfile|]. split.
      * rewrite Hwr. unfold writes, w2, log, after_reply, slept. cbn [trace].
        rewrite !filter_length_app. simpl. lia.
      * split; [exact Hexit|]. right. unfold elapsed in *.
        destruct Hbound as [Heq|Hb]; [rewrite Heq, Hclock|]; lia.
  - exists (log (Echo false MTimeout) w). unfold elapsed, log, writes. cbn.
    rewrite filter_length_app. simpl.
    repeat split; eauto; lia.
Qed.

(** C7 (as the code has it): when every poll is answered
    [authorization_pending], the interval is not negative and every turn
    takes some time, the loop started now ends, for any [fuel] above
    [expires_in], by returning [False] after the timeout message, i.e. in
    [TIMED_OUT], without touching the token file.  The loop leaves only
    once the elapsed time has reached [expires_in]; what bounds the
    elapsed time is [expires_in] plus one turn (the interval and the
    latency of a request), because the deadline is looked at before the
    sleep of a turn, not after. *)
Theorem C7_pending_polls_end_in_timeout
    (fuel : nat) (cid ten dc : string) (interval expires_in L : Z) (w : World) :
  0 <= interval ->
  (forall i, (sent w <= i)%nat -> pending (server w i)) ->
  (forall i, (sent w <= i)%nat ->
     0 < interval + Z.of_nat (latency (server w i)) /\
     Z.of_nat (latency (server w i)) <= L) ->
  (Z.to_nat expires_in < fuel)%nat ->
  let out := poll_loop fuel cid ten dc interval expires_in (clock w) w in
  ends_in TIMED_OUT out /\
  token_file (snd out) = token_file w /\
  writes (trace (snd out)) = writes (trace w) /\
  expires_in <= elapsed (clock w) (snd out) /\
  (0 < expires_in -> elapsed (clock w) (snd out) < expires_in + interval + L).
Proof.
  intros Hi Hpend Hlat Hfuel. cbv zeta.
  destruct fuel as [|fuel]; [lia|].
  destruct (poll_loop_pending cid ten dc interval expires_in (clock w) L fuel Hi
              w Hpend Hlat)
    as (w' & Hrun & (t & Hlast) & Hfile & Hwr & Hexit & Hbound).
  { unfold elapsed. lia. }
  rewrite Hrun. cbn [fst snd].
  split; [|split; [exact Hfile|split; [exact Hwr|split; [exact Hexit|]]]].
  - split.
    + exists false. split; [reflexivity|]. split; [discriminate | discriminate].
    + exists t, (Echo false MTimeout). now split.
  - intros Hpos. destruct Hbound as [Heq|Hb]; [|exact Hb].
    unfold elapsed in *. lia.
Qed.

(** * The statements at work on the scenarios *)

(** The whole login: three pending polls, then a token and a profile. *)
Example login_after_three_pending_polls :
  let out :=
    device_code_login 10 "app-1" "consumers"
      (world (Some two_accounts) 100
         (script [reply 200 (device_body 900 None);
                  pending_reply; pending_reply; pending_reply;
                  reply 200 (token_body "at-carol" (Some "rt-carol") 3600);
                  reply 200 (profile_body (Some "carol@example.com") None)])) in
  fst out = Val true /\
  dict_keys (store (snd out)) =
    [Some "alice@example.com"; Some "bob@contoso.example"; Some "carol@example.com"] /\
  dict_get (store (snd out)) (Some "carol@example.com") =
    Some (mkAccount "app-1" "consumers" "at-carol" "rt-carol" 3720
            (profile_body (Some "carol@example.com") None)) /\
  length (filter (fun e => match e with Echo _ MDot => true | _ => false end)
            (trace (snd out))) = 3%nat.
Proof. vm_compute. repeat split. Qed.

(** A login for an account already in the store replaces its record and
    keeps its place. *)
Example login_again_replaces_the_record :
  let out :=
    poll_loop 1 "app-2" "common" "dc-1" 5 900 100
      (world (Some two_accounts) 100
         (script [reply 200 (token_body "at-new" (Some "rt-new") 3600);
                  reply 200 (profile_body (Some "alice@example.com") None)])) in
  store (snd out) =
    [(Some "alice@example.com",
      mkAccount "app-2" "common" "at-new" "rt-new" 3705
                (profile_body (Some "alice@example.com") None));
     (Some "bob@contoso.example", bob)].
Proof. vm_compute. reflexivity. Qed.

Lemma C1_witness :
  dict_get (store refused_world) (resolved (store refused_world) None) = Some alice /\
  expires_at alice - 300 <= clock refused_world /\
  status_code (server refused_world (sent refused_world)) <> 200 /\
  refresh_calls (trace (snd (get_access_token None refused_world))) = 1%nat /\
  fails_with RefreshFailed (get_access_token None refused_world) /\
  token_file (snd (get_access_token None refused_world)) = Some two_accounts.
Proof.
  assert (dict_get (store refused_world) (resolved (store refused_world) None)
          = Some alice) as H1 by reflexivity.
  assert (expires_at alice - 300 <= clock refused_world) as H2 by (vm_compute; discriminate).
  assert (status_code (server refused_world (sent refused_world)) <> 200) as H3
    by (vm_compute; discriminate).
  destruct (C1_stale_token_is_refreshed_exactly_once refused_world None alice H1 H2)
    as (_ & _ & Hcount & Hfail).
  destruct (Hfail H3) as (Hf & _ & Hfile).
  repeat split; try assumption; try exact (proj1 Hf); exact (proj2 Hf).
Defined.

Lemma C2_witness :
  dict_get (store fresh_world) (resolved (store fresh_world) (Some "bob@contoso.example"))
    = Some bob /\
  clock fresh_world + 300 < expires_at bob /\
  get_access_token (Some "bob@contoso.example") fresh_world
    = (Val (Some "at-bob"), fresh_world).
Proof.
  assert (dict_get (store fresh_world)
            (resolved (store fresh_world) (Some "bob@contoso.example")) = Some bob)
    as H1 by reflexivity.
  assert (clock fresh_world + 300 < expires_at bob) as H2 by reflexivity.
  split; [exact H1|]. split; [exact H2|].
  exact (proj1 (C2_fresh_token_is_served_from_the_store
                  fresh_world (Some "bob@contoso.example") bob H1 H2)).
Defined.

Lemma C3_witness :
  dict_get (store rotating_world) (Some "alice@example.com") = Some alice /\
  status_code (server rotating_world (sent rotating_world)) = 200 /\
  j_access_token (json (server rotating_world (sent rotating_world))) = Some "at-new" /\
  j_expires_in (json (server rotating_world (sent rotating_world))) = Some 3600 /\
  store (snd (_refresh_token (Some "alice@example.com") alice rotating_world)) =
    dict_set (store rotating_world) (Some "alice@example.com")
      (mkAccount "app-1" "consumers" "at-new" "rt-new" 8402
                 (profile_body (Some "alice@example.com") None)).
Proof.
  assert (dict_get (store rotating_world) (Some "alice@example.com") = Some alice)
    as H1 by reflexivity.
  assert (status_code (server rotating_world (sent rotating_world)) = 200)
    as H2 by reflexivity.
  assert (j_access_token (json (server rotating_world (sent rotating_world)))
          = Some "at-new") as H3 by reflexivity.
  assert (j_expires_in (json (server rotating_world (sent rotating_world)))
          = Some 3600) as H4 by reflexivity.
  repeat (split; [assumption|]).
  exact (proj1 (proj2 (C3_successful_refresh_updates_one_record
                         rotating_world (Some "alice@example.com") alice alice
                         "at-new" 3600 H1 H2 H3 H4))).
Defined.

Lemma C4_witness :
  status_code (server refused_world (sent refused_world)) <> 200 /\
  fst (_refresh_token (Some "alice@example.com") alice refused_world) = Val None /\
  token_file (snd (_refresh_token (Some "alice@example.com") alice refused_world))
    = Some two_accounts.
Proof.
  assert (status_code (server refused_world (sent refused_world)) <> 200) as H
    by (vm_compute; discriminate).
  destruct (C4_failed_refresh_leaves_the_file_untouched
              refused_world (Some "alice@example.com") alice H) as (Hr & Hf & _).
  repeat split; assumption.
Defined.

Lemma C8_witness :
  store empty_world = [] /\
  fails_with NotAuthenticated (get_access_token None empty_world) /\
  store fresh_world <> [] /\
  dict_get (store fresh_world) (Some "carol@example.com") = None /\
  fails_with AccountNotFound (get_access_token (Some "carol@example.com") fresh_world) /\
  token_file (snd (get_access_token (Some "carol@example.com") fresh_world))
    = Some two_accounts.
Proof.
  assert (store empty_world = []) as H1 by reflexivity.
  assert (store fresh_world <> []) as H2 by (vm_compute; discriminate).
  assert (dict_get (store fresh_world) (Some "carol@example.com") = None)
    as H3 by reflexivity.
  destruct (C8_empty_store_and_unknown_account empty_world) as [He _].
  destruct (C8_empty_store_and_unknown_account fresh_world) as [_ Hm].
  destruct (He H1 None) as (_ & Hfail1 & _).
  destruct (Hm H2 "carol@example.com" H3) as (_ & Hfail2 & Hfile).
  repeat split; try assumption;
    try exact (proj1 Hfail1); try exact (proj2 Hfail1);
    try exact (proj1 Hfail2); exact (proj2 Hfail2).
Defined.

Lemma C10_witness :
  get_access_token None rotating_world
    = (Val (Some "at-new"), snd (get_access_token None rotating_world)) /\
  exists a,
    dict_get (store (snd (get_access_token None rotating_world)))
             (resolved (store (snd (get_access_token None rotating_world))) None)
      = Some a /\
    access_token a = "at-new".
Proof.
  assert (get_access_token None rotating_world
          = (Val (Some "at-new"), snd (get_access_token None rotating_world)))
    as H by reflexivity.
  split; [exact H|].
  exact (proj2 (C10_returned_token_is_the_stored_one
                  rotating_world (snd (get_access_token None rotating_world))
                  None "at-new" H)).
Defined.

Lemma C5_witness :
  elapsed 100 login_world < 900 /\
  0 <= 5 /\
  status_code (server login_world (sent login_world)) = 200 /\
  j_access_token (json (server login_world (sent login_world))) = Some "at-carol" /\
  j_refresh_token (json (server login_world (sent login_world))) = Some "rt-carol" /\
  j_expires_in (json (server login_world (sent login_world))) = Some 3600 /\
  dict_get (store (snd (poll_loop 1 "app-1" "consumers" "dc-1" 5 900 100 login_world)))
           (Some "carol@example.com")
    = Some (mkAccount "app-1" "consumers" "at-carol" "rt-carol" 3705
                      (profile_body (Some "carol@example.com") None)) /\
  ends_in AUTHENTICATED (poll_loop 1 "app-1" "consumers" "dc-1" 5 900 100 login_world).
Proof.
  assert (elapsed 100 login_world < 900) as H1 by reflexivity.
  assert (0 <= 5) as H2 by lia.
  assert (status_code (server login_world (sent login_world)) = 200)
    as H3 by reflexivity.
  assert (j_access_token (json (server login_world (sent login_world)))
          = Some "at-carol") as H4 by reflexivity.
  assert (j_refresh_token (json (server login_world (sent login_world)))
          = Some "rt-carol") as H5 by reflexivity.
  assert (j_expires_in (json (server login_world (sent login_world)))
          = Some 3600) as H6 by reflexivity.
  repeat (split; [assumption|]).
  destruct (C5_successful_poll_stores_the_account
              0 "app-1" "consumers" "dc-1" 5 900 100 login_world
              "at-carol" "rt-carol" 3600 H1 H2 H3 H4 H5 H6)
    as (_ & _ & _ & _ & _ & Hget & _ & Hend).
  split; [exact Hget | exact Hend].
Defined.

Lemma C9_witness :
  elapsed 100 anonymous_login_world < 900 /\
  0 <= 5 /\
  status_code (server anonymous_login_world (sent anonymous_login_world)) = 200 /\
  j_access_token (json (server anonymous_login_world (sent anonymous_login_world)))
    = Some "at-x" /\
  j_refresh_token (json (server anonymous_login_world (sent anonymous_login_world)))
    = Some "rt-x" /\
  j_expires_in (json (server anonymous_login_world (sent anonymous_login_world)))
    = Some 3600 /\
  status_code (server anonymous_login_world (S (sent anonymous_login_world))) <> 200 /\
  fst (poll_loop 1 "app-1" "consumers" "dc-1" 5 900 100 anonymous_login_world)
    = Val true /\
  dict_get
    (store (snd (poll_loop 1 "app-1" "consumers" "dc-1" 5 900 100 anonymous_login_world)))
    (Some "null")
    = Some (mkAccount "app-1" "consumers" "at-x" "rt-x" 3705 empty_json).
Proof.
  assert (elapsed 100 anonymous_login_world < 900) as H1 by reflexivity.
  assert (0 <= 5) as H2 by lia.
  assert (status_code (server anonymous_login_world (sent anonymous_login_world)) = 200)
    as H3 by reflexivity.
  assert (j_access_token (json (server anonymous_login_world (sent anonymous_login_world)))
          = Some "at-x") as H4 by reflexivity.
  assert (j_refresh_token (json (server anonymous_login_world (sent anonymous_login_world)))
          = Some "rt-x") as H5 by reflexivity.
  assert (j_expires_in (json (server anonymous_login_world (sent anonymous_login_world)))
          = Some 3600) as H6 by reflexivity.
  assert (status_code (server anonymous_login_world (S (sent anonymous_login_world)))
          <> 200) as H7 by (vm_compute; discriminate).
  repeat (split; [assumption|]).
  destruct (C9_login_without_identity_stores_under_None
              0 "app-1" "consumers" "dc-1" 5 900 100 anonymous_login_world
              "at-x" "rt-x" 3600 H1 H2 H3 H4 H5 H6 (or_introl H7))
    as (_ & Hret & _ & _ & _ & _ & Hget).
  split; [exact Hret | exact Hget].
Defined.

Lemma C6_witness :
  (elapsed 0 pending_world < 12 /\ 0 <= 5 /\
   status_code (server pending_world (sent pending_world)) <> 200 /\
   j_error (json (server pending_world (sent pending_world)))
     = Some "authorization_pending" /\
   poll_loop 2 "app-1" "consumers" "dc-1" 5 12 0 pending_world =
     poll_loop 1 "app-1" "consumers" "dc-1" 5 12 0
       (log (Echo false MDot)
          (after_reply (poll_request "app-1" "consumers" "dc-1")
             (slept 5 pending_world)))) /\
  (elapsed 0 declined_world < 12 /\
   status_code (server declined_world (sent declined_world)) <> 200 /\
   j_error (json (server declined_world (sent declined_world)))
     = Some "authorization_declined" /\
   ends_in DECLINED (poll_loop 1 "app-1" "consumers" "dc-1" 5 12 0 declined_world)) /\
  (elapsed 0 expired_world < 12 /\
   status_code (server expired_world (sent expired_world)) <> 200 /\
   j_error (json (server expired_world (sent expired_world))) = Some "expired_token" /\
   ends_in EXPIRED (poll_loop 1 "app-1" "consumers" "dc-1" 5 12 0 expired_world) /\
   token_file (snd (poll_loop 1 "app-1" "consumers" "dc-1" 5 12 0 expired_world))
     = Some two_accounts) /\
  (elapsed 0 bad_request_world < 12 /\
   status_code (server bad_request_world (sent bad_request_world)) <> 200 /\
   ends_in REQUEST_FAILED
     (poll_loop 1 "app-1" "consumers" "dc-1" 5 12 0 bad_request_world)).
Proof.
  assert (0 <= 5) as Hi by lia.
  assert (forall w, status_code (server w (sent w)) = 400 ->
                    status_code (server w (sent w)) <> 200) as Hs
    by (intros w ->; discriminate).
  split; [|split; [|split]].
  - assert (elapsed 0 pending_world < 12) as Ht by reflexivity.
    destruct (C6_error_codes_of_a_poll 1 "app-1" "consumers" "dc-1" 5 12 0
                pending_world Ht Hi (Hs pending_world eq_refl)) as (Hp & _).
    split; [assumption|]. split; [assumption|].
    split; [apply Hs; reflexivity|]. split; [reflexivity|].
    exact (proj1 (Hp eq_refl)).
  - assert (elapsed 0 declined_world < 12) as Ht by reflexivity.
    destruct (C6_error_codes_of_a_poll 0 "app-1" "consumers" "dc-1" 5 12 0
                declined_world Ht Hi (Hs declined_world eq_refl)) as (_ & Hd & _).
    split; [assumption|]. split; [apply Hs; reflexivity|].
    split; [reflexivity|]. exact (proj2 (Hd eq_refl)).
  - assert (elapsed 0 expired_world < 12) as Ht by reflexivity.
    destruct (C6_error_codes_of_a_poll 0 "app-1" "consumers" "dc-1" 5 12 0
                expired_world Ht Hi (Hs expired_world eq_refl)) as (_ & _ & He & _ & Hn).
    assert (j_error (json (server expired_world (sent expired_world)))
            <> Some "authorization_pending") as Hnp by (vm_compute; discriminate).
    split; [assumption|]. split; [apply Hs; reflexivity|].
    split; [reflexivity|]. split; [exact (proj2 (He eq_refl))|].
    exact (proj1 (proj2 (Hn Hnp))).
  - assert (elapsed 0 bad_request_world < 12) as Ht by reflexivity.
    destruct (C6_error_codes_of_a_poll 0 "app-1" "consumers" "dc-1" 5 12 0
                bad_request_world Ht Hi (Hs bad_request_world eq_refl)) as (_ & _ & _ & Ho & _).
    split; [assumption|]. split; [apply Hs; reflexivity|].
    apply Ho; vm_compute; discriminate.
Defined.

Lemma C7_witness :
  0 <= 5 /\
  (forall i, (sent pending_world <= i)%nat -> pending (server pending_world i)) /\
  (forall i, (sent pending_world <= i)%nat ->
     0 < 5 + Z.of_nat (latency (server pending_world i)) /\
     Z.of_nat (latency (server pending_world i)) <= 0) /\
  (Z.to_nat 12 < 20)%nat /\
  ends_in TIMED_OUT (poll_loop 20 "app-1" "consumers" "dc-1" 5 12 0 pending_world) /\
  elapsed 0 (snd (poll_loop 20 "app-1" "consumers" "dc-1" 5 12 0 pending_world))
    < 12 + 5 + 0.
Proof.
  assert (0 <= 5) as H1 by lia.
  assert (forall i, (sent pending_world <= i)%nat -> pending (server pending_world i))
    as H2 by (intros i _; split; [vm_compute; discriminate | reflexivity]).
  assert (forall i, (sent pending_world <= i)%nat ->
            0 < 5 + Z.of_nat (latency (server pending_world i)) /\
            Z.of_nat (latency (server pending_world i)) <= 0)
    as H3 by (intros i _; split; [reflexivity | vm_compute; discriminate]).
  assert ((Z.to_nat 12 < 20)%nat) as H4 by (vm_compute; lia).
  repeat (split; [assumption|]).
  destruct (C7_pending_polls_end_in_timeout
              20 "app-1" "consumers" "dc-1" 5 12 0 pending_world H1 H2 H3 H4)
    as (Hend & _ & _ & _ & Hb).
  split; [exact Hend|]. apply Hb. reflexivity.
Defined.

(** C7 as stated fails: with [expires_in] = 12 and an interval of 5, polls
    answered at once with [authorization_pending] start at 0, 5 and 10
    seconds; the third one sleeps until 15, and only then is the deadline
    looked at again.  The loop ends in [TIMED_OUT] 15 seconds after it
    started, 3 seconds past [expires_in]. *)
Lemma C7_counterexample_elapsed_exceeds_expires_in :
  let out := poll_loop 20 "app-1" "consumers" "dc-1" 5 12 0 pending_world in
  fst out = Val false /\
  trace (snd out) =
    [Sleep 5; poll_request "app-1" "consumers" "dc-1"; Echo false MDot;
     Sleep 5; poll_request "app-1" "consumers" "dc-1"; Echo false MDot;
     Sleep 5; poll_request "app-1" "consumers" "dc-1"; Echo false MDot;
     Echo false MTimeout] /\
  elapsed 0 (snd out) = 15 /\
  ~ (elapsed 0 (snd out) <= 12).
Proof.
  vm_compute. repeat split. intros H. apply H. reflexivity.
Qed.

(** * Further properties of the token store *)

(** X1: Saving a dictionary and loading it again gives it back, in the same
    order, when its keys are distinct strings; a record put under the key
    [None] comes back under [null].  Each save writes the file and then
    restricts it to its owner (mode 0o600). *)
Theorem save_then_load_round_trip (tokens : Dict) (w : World) :
  wf_dict tokens ->
  (_save_tokens tokens ;;; _load_tokens) w = (Val tokens, after_save tokens w) /\
  trace (after_save tokens w) =
    trace w ++ [WriteTokens (json_dump tokens); Chmod 384] /\
  forall k v,
    fst ((_save_tokens (dict_set tokens k v) ;;; _load_tokens) w)
    = Val (dict_set tokens (Some (json_key k)) v).
Proof.
  intros Hwf.
  assert (forall d, (_save_tokens d ;;; _load_tokens) w
                    = (Val (json_load (json_dump d)), after_save d w)) as Hrun.
  { intros d.
    rewrite (bind_val _ _ w (after_save d w) tt) by reflexivity.
    rewrite load_tokens_run. reflexivity. }
  split; [|split].
  - rewrite Hrun. now rewrite json_load_dump.
  - reflexivity.
  - intros k v. rewrite Hrun. cbn [fst]. now rewrite json_load_dump_set.
Qed.

Lemma save_then_load_round_trip_witness :
  wf_dict (json_load two_accounts) /\
  (_save_tokens (json_load two_accounts) ;;; _load_tokens) empty_world
  = (Val (json_load two_accounts), after_save (json_load two_accounts) empty_world).
Proof.
  assert (wf_dict (json_load two_accounts)) as H by apply json_load_wf.
  split; [exact H|].
  exact (proj1 (save_then_load_round_trip (json_load two_accounts) empty_world H)).
Defined.

(** * Further properties of the refresh and of the resolver *)

(** X2: A 200 answer to a refresh that lacks [access_token] or [expires_in],
    or a refresh for an email the file does not hold, raises [KeyError]
    for the missing key; the updates made in memory are lost and the file
    is as it was. *)
Theorem refresh_with_a_missing_key_raises
    (w : World) (email : Key) (account_data : Account) :
  status_code (server w (sent w)) = 200 ->
  let r := server w (sent w) in
  let out := _refresh_token email account_data w in
  (j_access_token (json r) = None ->
   fst out = Raise (KeyError (Some "access_token"))) /\
  (j_access_token (json r) <> None -> dict_get (store w) email = None ->
   fst out = Raise (KeyError email)) /\
  (j_access_token (json r) <> None -> dict_get (store w) email <> None ->
   j_expires_in (json r) = None ->
   fst out = Raise (KeyError (Some "expires_in"))) /\
  ((forall a, fst out <> Val (Some a)) ->
   token_file (snd out) = token_file w /\
   writes (trace (snd out)) = writes (trace w)).
Proof.
  intros Hs. cbv zeta. rewrite refresh_token_run. cbv zeta. rewrite Hs.
  cbn [Z.eqb Pos.eqb].
  assert (writes (trace (after_reply (refresh_request account_data) w))
          = writes (trace w)) as Hw.
  { unfold writes, after_reply. cbn [trace]. rewrite filter_length_app.
    simpl. lia. }
  destruct (j_access_token (json (server w (sent w)))) as [a|].
  - destruct (dict_get (store w) email) as [old|].
    + destruct (j_expires_in (json (server w (sent w)))) as [n|].
      * split; [discriminate|]. split; [discriminate|].
        split; [discriminate|]. intros Hno. now destruct (Hno a).
      * split; [discriminate|]. split; [discriminate|].
        split; [reflexivity|]. intros _. now split.
    + split; [discriminate|]. split; [reflexivity|].
      split; [congruence|]. intros _. now split.
  - split; [reflexivity|]. split; [congruence|].
    split; [congruence|]. intros _. now split.
Qed.

(** How the resolver can come to return a token: from the store, or from
    a refresh that went through. *)
Lemma get_access_token_Some (w w' : World) (email : option string) (tok : string) :
  get_access_token email w = (Val (Some tok), w') ->
  exists r,
    dict_get (store w) (resolved (store w) email) = Some r /\
    ((clock w + 300 < expires_at r /\ w' = w /\ tok = access_token r) \/
     (expires_at r - 300 <= clock w /\ tok <> "" /\
      exists n,
        w' = after_save
               (dict_set (store w) (resolved (store w) email)
                  (refreshed r tok
                     (clock (after_reply (refresh_request r) w) + n)
                     (j_refresh_token (json (server w (sent w))))))
               (after_reply (refresh_request r) w))).
Proof.
  intros Hrun.
  destruct (store w) as [|kv d] eqn:Es.
  { rewrite (get_access_token_empty _ _ Es) in Hrun. discriminate. }
  assert (store w <> []) as Hne by (rewrite Es; discriminate).
  rewrite <- Es in *. clear Es kv d.
  destruct (dict_get (store w) (resolved (store w) email)) as [r|] eqn:Hget.
  2:{ rewrite (get_access_token_missing _ _ Hne Hget) in Hrun. discriminate. }
  exists r. split; [reflexivity|].
  rewrite (get_access_token_found _ _ _ Hget) in Hrun.
  destruct (Z.geb_spec (clock w) (expires_at r - 300)) as [Hstale|Hfresh].
  - right. unfold bind in Hrun. rewrite refresh_token_run in Hrun.
    cbv zeta in Hrun. rewrite Hget in Hrun.
    destruct (status_code (server w (sent w)) =? 200); [|discriminate].
    destruct (j_access_token _) as [a|]; [|discriminate].
    destruct (j_expires_in _) as [n|]; [|discriminate].
    destruct (truthy (Some a)) eqn:Etr; [|discriminate].
    injection Hrun as <- <-.
    split; [lia|]. split.
    + intros ->. discriminate.
    + exists n. reflexivity.
  - left. injection Hrun as <- <-. split; [lia|]. split; reflexivity.
Qed.

Lemma get_access_token_fresh (w : World) (email : option string) (r : Account) :
  dict_get (store w) (resolved (store w) email) = Some r ->
  clock w + 300 < expires_at r ->
  get_access_token email w = (Val (Some (access_token r)), w).
Proof.
  intros Hget Hfresh. rewrite (get_access_token_found _ _ _ Hget).
  destruct (Z.geb_spec (clock w) (expires_at r - 300)); [lia | reflexivity].
Qed.

(** What the store holds for the resolved account once the resolver has
    returned a token. *)
Lemma resolved_record_after (w w' : World) (email : option string) (tok : string) :
  get_access_token email w = (Val (Some tok), w') ->
  resolved (store w') email = resolved (store w) email /\
  exists a, dict_get (store w') (resolved (store w) email) = Some a /\
            access_token a = tok.
Proof.
  intros Hrun.
  destruct (get_access_token_Some _ _ _ _ Hrun)
    as (r & Hget & [(Hfresh & -> & ->)|(Hstale & Hne & n & ->)]).
  - split; [reflexivity|]. exists r. auto.
  - destruct (wf_dict_key _ _ _ (store_wf w) Hget) as [s Hs].
    set (new := refreshed r tok _ _).
    assert (store (after_save (dict_set (store w) (resolved (store w) email) new)
                     (after_reply (refresh_request r) w))
            = dict_set (store w) (resolved (store w) email) new) as Est.
    { rewrite store_after_save by apply store_wf. now rewrite Hs. }
    rewrite Est. split.
    + apply resolved_keys. eapply dict_keys_set_old; eassumption.
    + exists new. rewrite dict_get_set_same. auto.
Qed.

(** A second call right after the resolver returned a token, while the
    stored record is more than 300 seconds from its expiry, returns the
    same token and does nothing else: no request, no write, no output. *)
Lemma resolver_serves_a_returned_token_again
    (w w' : World) (email : option string) (tok : string) (a : Account) :
  get_access_token email w = (Val (Some tok), w') ->
  dict_get (store w') (resolved (store w') email) = Some a ->
  clock w' + 300 < expires_at a ->
  get_access_token email w' = (Val (Some tok), w').
Proof.
  intros Hrun Hget Hfresh.
  destruct (resolved_record_after _ _ _ _ Hrun) as (Hres & a' & Hget' & Htok).
  rewrite <- Hres in Hget'. rewrite Hget in Hget'. injection Hget' as <-.
  rewrite <- Htok. now apply get_access_token_fresh.
Qed.

(** X3: The same, read off the refresh: a token obtained by a refresh whose
    [expires_in] exceeds 300 is served from the store by the next call. *)
Theorem refreshed_token_is_cached
    (w : World) (email : option string) (r : Account) (tok : string) (n : Z) :
  dict_get (store w) (resolved (store w) email) = Some r ->
  expires_at r - 300 <= clock w ->
  status_code (server w (sent w)) = 200 ->
  j_access_token (json (server w (sent w))) = Some tok ->
  tok <> "" ->
  j_expires_in (json (server w (sent w))) = Some n ->
  300 < n ->
  let w' := snd (get_access_token email w) in
  fst (get_access_token email w) = Val (Some tok) /\
  get_access_token email w' = (Val (Some tok), w') /\
  refresh_calls (trace w') = S (refresh_calls (trace w)).
Proof.
  intros Hget Hstale Hs Ha Hne Hn Hlong. cbv zeta.
  assert (get_access_token email w =
          (Val (Some tok),
           after_save
             (dict_set (store w) (resolved (store w) email)
                (refreshed r tok
                   (clock (after_reply (refresh_request r) w) + n)
                   (j_refresh_token (json (server w (sent w))))))
             (after_reply (refresh_request r) w))) as Hrun.
  { rewrite (get_access_token_found _ _ _ Hget).
    destruct (Z.geb_spec (clock w) (expires_at r - 300)); [|lia].
    unfold bind. rewrite refresh_token_run. cbv zeta.
    rewrite Hs, Ha, Hget, Hn. cbn [Z.eqb Pos.eqb].
    assert (truthy (Some tok) = true) as ->.
    { unfold truthy. destruct (String.eqb_spec tok ""); [contradiction|reflexivity]. }
    reflexivity. }
  rewrite Hrun. cbn [fst snd]. split; [reflexivity|].
  set (new := refreshed r tok _ _) in *.
  set (w' := after_save _ _) in *.
  destruct (resolved_record_after _ _ _ _ Hrun) as (Hres & a & Hget' & Htok).
  assert (a = new) as ->.
  { destruct (wf_dict_key _ _ _ (store_wf w) Hget) as [s Hs'].
    unfold w' in Hget'. rewrite store_after_save in Hget' by apply store_wf.
    rewrite Hs' in Hget'. cbn [json_key] in Hget'.
    rewrite dict_get_set_same in Hget'. congruence. }
  split.
  - change tok with (access_token new). apply get_access_token_fresh.
    + now rewrite Hres.
    + unfold new, refreshed, w', after_save. cbn [expires_at clock]. lia.
  - unfold w', after_save, after_reply. cbn [trace].
    rewrite <- app_assoc, refresh_calls_app. cbn. lia.
Qed.

(** X4: A refresh answered with status 200 and an empty [access_token]: the
    resolver's test [if new_token] fails on the empty string, so it
    returns [None], and prints nothing, although the refresh has written
    the empty token and the new expiry into the file. *)
Theorem resolver_drops_an_empty_refreshed_token
    (w : World) (email : option string) (r : Account) (n : Z) :
  dict_get (store w) (resolved (store w) email) = Some r ->
  expires_at r - 300 <= clock w ->
  status_code (server w (sent w)) = 200 ->
  j_access_token (json (server w (sent w))) = Some "" ->
  j_expires_in (json (server w (sent w))) = Some n ->
  let out := get_access_token email w in
  let new := refreshed r "" (clock (snd out) + n)
               (j_refresh_token (json (server w (sent w)))) in
  fst out = Val None /\
  trace (snd out) =
    trace w ++ [refresh_request r;
                WriteTokens (json_dump (dict_set (store w) (resolved (store w) email) new));
                Chmod 384] /\
  dict_get (store (snd out)) (resolved (store w) email) = Some new.
Proof.
  intros Hget Hstale Hs Ha Hn. cbv zeta.
  rewrite (get_access_token_found _ _ _ Hget).
  destruct (Z.geb_spec (clock w) (expires_at r - 300)); [|lia].
  unfold bind. rewrite refresh_token_run. cbv zeta.
  rewrite Hs, Ha, Hget, Hn.
  cbn [Z.eqb Pos.eqb truthy String.eqb negb]. unfold ret. cbn [fst snd].
  split; [reflexivity|]. split.
  - unfold after_save, after_reply. cbn [trace clock].
    now rewrite <- app_assoc.
  - destruct (wf_dict_key _ _ _ (store_wf w) Hget) as [s Hs'].
    rewrite store_after_save by apply store_wf.
    rewrite Hs'. cbn [json_key]. apply dict_get_set_same.
Qed.

(** * Resource clients *)

(** X15: A client that gets constructed holds a non-empty token, and that
    token is the [access_token] the file holds for the account the
    resolver chose; it is what the client sends as bearer. *)
Theorem client_holds_the_stored_token
    (w w' : World) (account : option string) (c : Client) :
  client_init account w = (Ready c, w') ->
  c_account c = account /\
  c_access_token c <> "" /\
  (exists a, dict_get (store w') (resolved (store w') account) = Some a /\
             access_token a = c_access_token c) /\
  In ("Authorization", ("Bearer " ++ c_access_token c)%string) (_headers c).
Proof.
  unfold client_init. intros Hinit.
  destruct (get_access_token account w) as [[t|e|] w1] eqn:Hrun; try discriminate.
  destruct t as [tok|]; [|discriminate].
  destruct (truthy (Some tok)) eqn:Etr; cbn [negb] in Hinit; [|discriminate].
  injection Hinit as <- <-. cbn [c_account c_access_token].
  split; [reflexivity|]. split.
  - intros ->. discriminate.
  - split.
    + destruct (resolved_record_after _ _ _ _ Hrun) as (Hres & a & Hget & Htok).
      exists a. rewrite Hres. now split.
    + left. reflexivity.
Qed.

(** X16: No client without a token: on an empty store, for an account the
    store does not hold, and when the refresh of a stale token is refused,
    the constructor raises [Exception("Not authenticated")], after the
    message of the resolver, and the token file is as it was. *)
Theorem client_is_refused_without_a_token (w : World) (account : option string) :
  store w = [] \/
  (store w <> [] /\ dict_get (store w) (resolved (store w) account) = None) \/
  (exists r, dict_get (store w) (resolved (store w) account) = Some r /\
             expires_at r - 300 <= clock w /\
             status_code (server w (sent w)) <> 200) ->
  fst (client_init account w) = Failure "Not authenticated" /\
  token_file (snd (client_init account w)) = token_file w /\
  exists t m, trace (snd (client_init account w)) = t ++ [Echo true m] /\
              auth_error_of m <> None.
Proof.
  unfold client_init. intros [He|[[Hne Hget]|(r & Hget & Hstale & Hs)]].
  - rewrite (get_access_token_empty _ _ He). cbn.
    repeat split. exists (trace w), MNotAuthenticated. split; [reflexivity|discriminate].
  - rewrite (get_access_token_missing _ _ Hne Hget). cbn.
    repeat split. eexists. eexists. split; [reflexivity|discriminate].
  - rewrite (get_access_token_found _ _ _ Hget).
    destruct (Z.geb_spec (clock w) (expires_at r - 300)); [|lia].
    unfold bind. rewrite (refresh_token_failed _ _ _ Hs). cbn.
    repeat split. eexists. eexists. split; [reflexivity|discriminate].
Qed.

(** * The reporting methods *)

(** X5: [logout] removes the whole file, so every account at once: afterwards
    the store is empty, [list_accounts] has nothing to list and the
    resolver answers not-authenticated whatever email it is asked for.
    Without a file, [logout] says so and changes nothing.  It sends no
    request and leaves the trace alone. *)
Theorem logout_clears_every_account (w : World) :
  let w' := snd (logout w) in
  (token_file w <> None -> fst (logout w) = Val NLoggedOut) /\
  (token_file w = None -> logout w = (Val NNoSession, w)) /\
  token_file w' = None /\
  store w' = [] /\
  sent w' = sent w /\ trace w' = trace w /\ clock w' = clock w /\
  fst (list_accounts w') = Val [NNoAccounts] /\
  forall email,
    get_access_token email w' = (Val None, log (Echo true MNotAuthenticated) w').
Proof.
  cbv zeta.
  assert (token_file (snd (logout w)) = None) as Hfile.
  { unfold logout. destruct (token_file w) eqn:E; [reflexivity | exact E]. }
  assert (store (snd (logout w)) = []) as Hstore.
  { unfold store. now rewrite Hfile. }
  split; [|split; [|split; [exact Hfile|split; [exact Hstore|]]]].
  - unfold logout. destruct (token_file w); [reflexivity | congruence].
  - unfold logout. now intros ->.
  - split; [|split; [|split; [|split]]].
    + unfold logout. now destruct (token_file w).
    + unfold logout. now destruct (token_file w).
    + unfold logout. now destruct (token_file w).
    + unfold list_accounts.
      rewrite (bind_val _ _ _ _ _ (load_tokens_run _)). now rewrite Hstore.
    + intros email. now apply get_access_token_empty.
Qed.

Lemma NoDup_map_inj {A B} (f : A -> B) (l : list A) :
  (forall x y, f x = f y -> x = y) -> NoDup l -> NoDup (map f l).
Proof.
  intros Hinj Hnd. induction Hnd as [|x l Hx Hnd IH]; simpl; constructor; auto.
  intros Hin. apply in_map_iff in Hin as (y & Hy & Hin).
  apply Hinj in Hy. now subst.
Qed.

(** X6: [list_accounts] prints, under its header, one line per account of the
    store, in the order of the store and none twice; an email has a line
    exactly when the store has a record for it.  It changes nothing. *)
Theorem list_accounts_lists_the_store (w : World) :
  exists lines,
    list_accounts w = (Val lines, w) /\
    (store w = [] -> lines = [NNoAccounts]) /\
    (store w <> [] ->
     lines = NAccountsHeader :: map NAccountLine (dict_keys (store w))) /\
    NoDup lines /\
    forall k, In (NAccountLine k) lines <-> dict_get (store w) k <> None.
Proof.
  unfold list_accounts. rewrite (bind_val _ _ _ _ _ (load_tokens_run w)).
  destruct (store w) as [|kv d] eqn:Es.
  - exists [NNoAccounts]. cbn. split; [reflexivity|]. split; [reflexivity|].
    split; [congruence|]. split.
    + constructor; [simpl; tauto | constructor].
    + intros k. split; [intros [H|[]]; discriminate | congruence].
  - rewrite <- Es. assert ((length (store w) =? 0)%nat = false) as ->
      by now rewrite Es.
    exists (NAccountsHeader :: map NAccountLine (dict_keys (store w))).
    split; [reflexivity|]. split; [rewrite Es; discriminate|].
    split; [reflexivity|]. split.
    + constructor.
      * intros Hin. apply in_map_iff in Hin as (k & Hk & _). discriminate.
      * apply NoDup_map_inj; [congruence | apply (store_wf w)].
    + intros k. split.
      * intros [H|Hin]; [discriminate|].
        apply in_map_iff in Hin as (k' & [= ->] & Hin).
        intros Hnone. now apply dict_get_None in Hnone.
      * intros Hget. right. apply in_map. 
        destruct (dict_get (store w) k) as [a|] eqn:E; [|congruence].
        eapply dict_get_Some_in; eassumption.
Qed.

Lemma status_loop_run (fromtimestamp : Z -> Z) (items : Dict) (w : World) :
  status_loop fromtimestamp items w =
    (Val (map (fun kv =>
                 if fromtimestamp (expires_at (snd kv)) >? fromtimestamp (clock w)
                 then NValid (fst kv) (fromtimestamp (expires_at (snd kv)))
                 else NExpired (fst kv)) items),
     w).
Proof.
  induction items as [|[email data] rest IH]; [reflexivity|].
  cbn [status_loop map fst snd].
  rewrite (bind_val _ _ w w (clock w)) by reflexivity.
  rewrite (bind_val _ _ _ _ _ IH). reflexivity.
Qed.

Lemma wf_dict_In (d : Dict) k v :
  NoDup (dict_keys d) -> In (k, v) d -> dict_get d k = Some v.
Proof.
  induction d as [|[k' v'] d IH]; simpl; [tauto|].
  intros Hnd [[= -> ->]|Hin].
  - now rewrite key_eqb_refl.
  - inversion Hnd as [|? ? Hnotin Hnd']; subst.
    destruct (key_eqb k' k) eqn:E; [|now apply IH].
    apply key_eqb_eq in E. subst k'. exfalso. apply Hnotin.
    change k with (fst (k, v)). now apply in_map.
Qed.

Lemma get_access_token_stale_calls (w : World) (email : option string) (r : Account) :
  dict_get (store w) (resolved (store w) email) = Some r ->
  expires_at r - 300 <= clock w ->
  refresh_calls (trace (snd (get_access_token email w)))
  = S (refresh_calls (trace w)).
Proof.
  intros Hget Hstale. rewrite (get_access_token_found _ _ _ Hget).
  destruct (Z.geb_spec (clock w) (expires_at r - 300)); [|lia].
  rewrite snd_bind_truthy.
  destruct (refresh_token_trace w (resolved (store w) email) r) as (post & Ht & Hc).
  rewrite Ht, refresh_calls_app, refresh_calls_request, Hc. lia.
Qed.

(** X7: [status] prints one line per account and changes nothing.  As long
    as the local clock reading grows with the timestamp, an account it
    shows as expired has its [expires_at] at or before the clock, and
    asking the resolver for that account sends a refresh request; an
    account it shows as valid has its [expires_at] after the clock, and
    the date shown is the reading at [expires_at]. *)
Theorem status_agrees_with_the_resolver
    (fromtimestamp : Z -> Z) (w : World) :
  (forall a b, a < b -> fromtimestamp a < fromtimestamp b) ->
  store w <> [] ->
  exists lines,
    status fromtimestamp w = (Val lines, w) /\
    length lines = length (store w) /\
    (forall e, In (NExpired (Some e)) lines ->
       exists r, dict_get (store w) (Some e) = Some r /\
                 expires_at r <= clock w /\
                 refresh_calls (trace (snd (get_access_token (Some e) w)))
                 = S (refresh_calls (trace w))) /\
    (forall e x, In (NValid (Some e) x) lines ->
       exists r, dict_get (store w) (Some e) = Some r /\
                 clock w < expires_at r /\
                 x = fromtimestamp (expires_at r)).
Proof.
  intros Hmono Hne. unfold status.
  rewrite (bind_val _ _ _ _ _ (load_tokens_run w)).
  assert ((length (store w) =? 0)%nat = false) as ->
    by (destruct (store w); [congruence | reflexivity]).
  rewrite status_loop_run. eexists. split; [reflexivity|].
  split; [apply length_map|].
  assert (forall a b, fromtimestamp a <= fromtimestamp b -> a <= b) as Hle.
  { intros a b H. destruct (Z.le_gt_cases a b) as [|Hgt]; [assumption|].
    apply Hmono in Hgt. lia. }
  assert (forall a b, fromtimestamp a < fromtimestamp b -> a < b) as Hlt.
  { intros a b H. destruct (Z.lt_ge_cases a b) as [|Hge]; [assumption|].
    destruct (Z.eq_dec a b) as [->|Hd]; [lia|].
    assert (b < a) as Hba by lia. apply Hmono in Hba. lia. }
  split.
  - intros e Hin. apply in_map_iff in Hin as ([k r] & Hline & Hin).
    cbn [fst snd] in Hline.
    destruct (Z.gtb_spec (fromtimestamp (expires_at r)) (fromtimestamp (clock w)))
      as [|Hexp]; [discriminate|].
    injection Hline as ->.
    pose proof (wf_dict_In _ _ _ (proj1 (store_wf w)) Hin) as Hget.
    exists r. split; [exact Hget|]. apply Hle in Hexp. split; [exact Hexp|].
    apply (get_access_token_stale_calls w (Some e) r); [exact Hget | lia].
  - intros e x Hin. apply in_map_iff in Hin as ([k r] & Hline & Hin).
    cbn [fst snd] in Hline.
    destruct (Z.gtb_spec (fromtimestamp (expires_at r)) (fromtimestamp (clock w)))
      as [Hval|]; [|discriminate].
    injection Hline as -> <-.
    pose proof (wf_dict_In _ _ _ (proj1 (store_wf w)) Hin) as Hget.
    exists r. split; [exact Hget|]. split; [|reflexivity].
    apply Hlt. lia.
Qed.

(** * The whole login *)

Lemma device_code_login_start (fuel : nat) (cid ten : string) (w : World) :
  device_code_login fuel cid ten w =
    let r := server w (sent w) in
    let w1 := after_reply (device_code_request cid ten)
                (log (Echo false MRequestingCode) w) in
    if status_code r =? 200 then
      match j_device_code (json r) with
      | None => (Raise (KeyError (Some "device_code")), w1)
      | Some dc =>
          match j_user_code (json r) with
          | None => (Raise (KeyError (Some "user_code")), w1)
          | Some uc =>
              match j_expires_in (json r) with
              | None => (Raise (KeyError (Some "expires_in")), w1)
              | Some n =>
                  poll_loop fuel cid ten dc (get_default (j_interval (json r)) 5)
                            n (clock w1) (code_shown cid ten w)
              end
          end
      end
    else (Val false, log (Echo true (MErrorText (text r))) w1).
Proof.
  cbv zeta. unfold device_code_login.
  rewrite (bind_val _ _ w (log (Echo false MRequestingCode) w) tt) by reflexivity.
  set (w0 := log (Echo false MRequestingCode) w).
  rewrite (bind_val _ _ w0 (after_reply (device_code_request cid ten) w0)
             (server w (sent w))) by reflexivity.
  set (w1 := after_reply (device_code_request cid ten) w0).
  destruct (status_code (server w (sent w)) =? 200); [|reflexivity].
  cbn [negb].
  destruct (j_device_code (json (server w (sent w)))) as [dc|]; [|reflexivity].
  cbn [subscript]. rewrite bind_ret.
  destruct (j_user_code (json (server w (sent w)))) as [uc|] eqn:Euc; [|reflexivity].
  cbn [subscript]. rewrite bind_ret.
  destruct (j_expires_in (json (server w (sent w)))) as [n|]; [|reflexivity].
  cbn [subscript]. rewrite bind_ret.
  subst w0 w1.
  unfold bind, echo, time_time, code_shown, log, after_reply.
  cbn [token_file clock server sent trace]. rewrite Euc.
  rewrite <- !app_assoc. reflexivity.
Qed.

(** X8: A device-code request answered with a status other than 200 ends the
    login at once: [False] after the server's error text on the error
    stream ([REQUEST_FAILED]); one request, no code shown, no poll, the
    token file untouched, whatever the fuel. *)
Theorem login_stops_when_the_code_request_is_refused
    (fuel : nat) (cid ten : string) (w : World) :
  status_code (server w (sent w)) <> 200 ->
  let out := device_code_login fuel cid ten w in
  fst out = Val false /\
  trace (snd out) =
    trace w ++ [Echo false MRequestingCode; device_code_request cid ten;
                Echo true (MErrorText (text (server w (sent w))))] /\
  ends_in REQUEST_FAILED out /\
  sent (snd out) = S (sent w) /\
  token_file (snd out) = token_file w.
Proof.
  intros Hs. cbv zeta. rewrite device_code_login_start. cbv zeta.
  apply Z.eqb_neq in Hs. rewrite Hs. cbn [fst snd].
  assert (trace (log (Echo true (MErrorText (text (server w (sent w)))))
                   (after_reply (device_code_request cid ten)
                      (log (Echo false MRequestingCode) w)))
          = trace w ++ [Echo false MRequestingCode; device_code_request cid ten;
                        Echo true (MErrorText (text (server w (sent w))))]) as Ht.
  { unfold log, after_reply. cbn [trace]. now rewrite <- !app_assoc. }
  split; [reflexivity|]. split; [exact Ht|]. split.
  - apply (ends_in_failure REQUEST_FAILED
             (Echo true (MErrorText (text (server w (sent w)))))
             (after_reply (device_code_request cid ten)
                (log (Echo false MRequestingCode) w)));
      [reflexivity | discriminate].
  - split; reflexivity.
Qed.

(** X9: A 200 answer to the device-code request that lacks [device_code],
    [user_code] or [expires_in] raises [KeyError] for the first of them
    that is missing, before any code is shown or any poll made. *)
Theorem login_raises_on_an_incomplete_code_reply
    (fuel : nat) (cid ten : string) (w : World) :
  status_code (server w (sent w)) = 200 ->
  let r := server w (sent w) in
  let out := device_code_login fuel cid ten w in
  let missing :=
    match j_device_code (json r), j_user_code (json r), j_expires_in (json r) with
    | None, _, _ => Some "device_code"
    | Some _, None, _ => Some "user_code"
    | Some _, Some _, None => Some "expires_in"
    | Some _, Some _, Some _ => None
    end in
  forall key, missing = Some key ->
    fst out = Raise (KeyError (Some key)) /\
    trace (snd out) = trace w ++ [Echo false MRequestingCode; device_code_request cid ten] /\
    sent (snd out) = S (sent w) /\
    token_file (snd out) = token_file w.
Proof.
  intros Hs. cbv zeta. intros key Hkey.
  rewrite device_code_login_start. cbv zeta. rewrite Hs. cbn [Z.eqb Pos.eqb].
  assert (trace (after_reply (device_code_request cid ten)
                   (log (Echo false MRequestingCode) w))
          = trace w ++ [Echo false MRequestingCode; device_code_request cid ten]) as Ht.
  { unfold log, after_reply. cbn [trace]. now rewrite <- !app_assoc. }
  destruct (j_device_code (json (server w (sent w)))) as [dc|];
    [|injection Hkey as <-; repeat split; exact Ht].
  destruct (j_user_code (json (server w (sent w)))) as [uc|];
    [|injection Hkey as <-; repeat split; exact Ht].
  destruct (j_expires_in (json (server w (sent w)))) as [n|];
    [discriminate|injection Hkey as <-; repeat split; exact Ht].
Qed.

Ltac count_writes :=
  unfold code_shown; unfold writes, log, after_save, after_reply, slept;
  cbv zeta; cbn [trace token_file fst snd];
  rewrite ?filter_length_app; simpl; lia.

Lemma poll_loop_writes (fuel : nat) (cid ten dc : string)
    (interval expires_in start_time : Z) (w : World) :
  let out := poll_loop fuel cid ten dc interval expires_in start_time w in
  (fst out = Val true /\ writes (trace (snd out)) = S (writes (trace w))) \/
  (fst out <> Val true /\
   token_file (snd out) = token_file w /\
   writes (trace (snd out)) = writes (trace w)).
Proof.
  cbv zeta. revert w. induction fuel as [|fuel IH]; intros w.
  - right. cbn. split; [discriminate|]. split; reflexivity.
  - rewrite poll_loop_step. cbv zeta.
    destruct (clock w - start_time <? expires_in);
      [|right; split; [discriminate|]; split; [reflexivity|count_writes]].
    destruct (interval <? 0);
      [right; split; [discriminate|]; split; reflexivity|].
    destruct (status_code (server w (sent w)) =? 200).
    + destruct (j_access_token _);
        [|right; split; [discriminate|]; split; [reflexivity|count_writes]].
      destruct (j_refresh_token _);
        [|right; split; [discriminate|]; split; [reflexivity|count_writes]].
      destruct (j_expires_in _);
        [|right; split; [discriminate|]; split; [reflexivity|count_writes]].
      left. split; [reflexivity|count_writes].
    + destruct (error_is _ "authorization_pending").
      * set (w2 := log (Echo false MDot) _).
        assert (token_file w2 = token_file w) as Hf by reflexivity.
        assert (writes (trace w2) = writes (trace w)) as Hw
          by (unfold w2; count_writes).
        destruct (IH w2) as [[Hr Hc]|(Hr & Hf' & Hc)].
        -- left. split; [exact Hr|]. now rewrite Hc, Hw.
        -- right. split; [exact Hr|]. split; congruence.
      * destruct (error_is _ "authorization_declined");
          [right; split; [discriminate|]; split; [reflexivity|count_writes]|].
        destruct (error_is _ "expired_token");
          right; (split; [discriminate|]; split; [reflexivity|count_writes]).
Qed.

(** X11: A login writes the token file exactly when it succeeds: a run that
    returns [True] has made one write, and a run that ends any other way
    (refused, declined, expired, timed out, an exception, fuel run out)
    has made none and leaves the file as it was. *)
Theorem login_writes_only_on_success (fuel : nat) (cid ten : string) (w : World) :
  let out := device_code_login fuel cid ten w in
  (fst out = Val true -> writes (trace (snd out)) = S (writes (trace w))) /\
  (fst out <> Val true ->
   token_file (snd out) = token_file w /\
   writes (trace (snd out)) = writes (trace w)).
Proof.
  cbv zeta. rewrite device_code_login_start. cbv zeta.
  assert (forall r : Result bool, r <> Val true -> r = Val true -> False) as Hno
    by (intros r H1 H2; exact (H1 H2)).
  destruct (status_code (server w (sent w)) =? 200);
    [|split; [discriminate | intros _; split; [reflexivity|count_writes]]].
  destruct (j_device_code _) as [dc|];
    [|split; [discriminate | intros _; split; [reflexivity|count_writes]]].
  destruct (j_user_code _) as [uc|];
    [|split; [discriminate | intros _; split; [reflexivity|count_writes]]].
  destruct (j_expires_in _) as [n|];
    [|split; [discriminate | intros _; split; [reflexivity|count_writes]]].
  assert (writes (trace (code_shown cid ten w)) = writes (trace w)) as Hw
    by count_writes.
  assert (token_file (code_shown cid ten w) = token_file w) as Hf by reflexivity.
  destruct (poll_loop_writes fuel cid ten dc
              (get_default (j_interval (json (server w (sent w)))) 5) n
              (clock (after_reply (device_code_request cid ten)
                        (log (Echo false MRequestingCode) w)))
              (code_shown cid ten w)) as [[Hr Hc]|(Hr & Hf' & Hc)].
  - split; [intros _; now rewrite Hc, Hw | intros H; now destruct (H Hr)].
  - split; [intros H; now destruct (Hr H) | intros _; split; congruence].
Qed.




Lemma store_after_login (fuel : nat) (cid ten dc : string)
    (interval expires_in start_time : Z) (w : World) (a rt : string) (n : Z) :
  elapsed start_time w < expires_in ->
  0 <= interval ->
  status_code (server w (sent w)) = 200 ->
  j_access_token (json (server w (sent w))) = Some a ->
  j_refresh_token (json (server w (sent w))) = Some rt ->
  j_expires_in (json (server w (sent w))) = Some n ->
  let w' := snd (poll_loop (S fuel) cid ten dc interval expires_in start_time w) in
  let ui := profile_of (server w (S (sent w))) in
  store w' = dict_set (store w) (Some (json_key (identity_of ui)))
               (mkAccount cid ten a rt (clock w' + n) ui).
Proof.
  intros Ht Hi Hs Ha Hr Hn. cbv zeta.
  rewrite (poll_success_run fuel cid ten dc _ _ _ _ _ _ _ Ht Hi Hs Ha Hr Hn).
  cbv zeta. cbn [snd].
  set (ui := profile_of (server w (S (sent w)))).
  set (w3 := after_reply (profile_request a) _).
  change (store (log (Echo false (MSuccess (identity_of ui)))
                   (after_save
                      (dict_set (store w) (identity_of ui)
                         (mkAccount cid ten a rt (clock w3 + n) ui)) w3)))
    with (store (after_save
                   (dict_set (store w) (identity_of ui)
                      (mkAccount cid ten a rt (clock w3 + n) ui)) w3)).
  rewrite store_after_save by apply store_wf. reflexivity.
Qed.

(** X13: Login and resolver together: right after a poll has stored an account
    whose token lasts more than 300 seconds, asking the resolver for that
    account (by the name its record has in the file) returns the access
    token just obtained, with no request and no write. *)
Theorem token_of_a_login_is_served_by_the_resolver
    (fuel : nat) (cid ten dc : string) (interval expires_in start_time : Z)
    (w : World) (a rt : string) (n : Z) :
  elapsed start_time w < expires_in ->
  0 <= interval ->
  status_code (server w (sent w)) = 200 ->
  j_access_token (json (server w (sent w))) = Some a ->
  j_refresh_token (json (server w (sent w))) = Some rt ->
  j_expires_in (json (server w (sent w))) = Some n ->
  300 < n ->
  let w' := snd (poll_loop (S fuel) cid ten dc interval expires_in start_time w) in
  let name := json_key (identity_of (profile_of (server w (S (sent w))))) in
  get_access_token (Some name) w' = (Val (Some a), w').
Proof.
  intros Ht Hi Hs Ha Hr Hn Hlong. cbv zeta.
  pose proof (store_after_login fuel cid ten dc _ _ _ _ _ _ _ Ht Hi Hs Ha Hr Hn)
    as Hstore. cbv zeta in Hstore.
  set (w' := snd (poll_loop (S fuel) cid ten dc interval expires_in start_time w)) in *.
  set (ui := profile_of (server w (S (sent w)))) in *.
  set (new := mkAccount cid ten a rt (clock w' + n) ui) in *.
  change a with (access_token new) at 1.
  apply get_access_token_fresh.
  - cbn [resolved]. rewrite Hstore. apply dict_get_set_same.
  - cbn [expires_at new]. lia.
Qed.

Lemma dict_set_hd (d : Dict) k v :
  d <> [] -> hd None (dict_keys (dict_set d k v)) = hd None (dict_keys d).
Proof.
  destruct d as [|[k' v'] d]; [congruence|]. intros _. simpl.
  now destruct (key_eqb k' k).
Qed.

(** X14: A login never reorders the store: the key of the new record keeps its
    place when the store had it and goes last otherwise.  So the account
    the resolver picks when no email is given stays the same once there
    is one, and [list_accounts] shows the accounts in that order. *)
Theorem login_keeps_the_accounts_in_order
    (fuel : nat) (cid ten dc : string) (interval expires_in start_time : Z)
    (w : World) (a rt : string) (n : Z) :
  elapsed start_time w < expires_in ->
  0 <= interval ->
  status_code (server w (sent w)) = 200 ->
  j_access_token (json (server w (sent w))) = Some a ->
  j_refresh_token (json (server w (sent w))) = Some rt ->
  j_expires_in (json (server w (sent w))) = Some n ->
  let w' := snd (poll_loop (S fuel) cid ten dc interval expires_in start_time w) in
  let name := json_key (identity_of (profile_of (server w (S (sent w))))) in
  (dict_get (store w) (Some name) <> None ->
   dict_keys (store w') = dict_keys (store w)) /\
  (dict_get (store w) (Some name) = None ->
   dict_keys (store w') = dict_keys (store w) ++ [Some name]) /\
  (store w <> [] -> resolved (store w') None = resolved (store w) None) /\
  (store w = [] -> resolved (store w') None = Some name) /\
  fst (list_accounts w') =
    Val (NAccountsHeader :: map NAccountLine (dict_keys (store w'))).
Proof.
  intros Ht Hi Hs Ha Hr Hn. cbv zeta.
  pose proof (store_after_login fuel cid ten dc _ _ _ _ _ _ _ Ht Hi Hs Ha Hr Hn)
    as Hstore. cbv zeta in Hstore.
  set (w' := snd (poll_loop (S fuel) cid ten dc interval expires_in start_time w)) in *.
  set (ui := profile_of (server w (S (sent w)))) in *.
  set (new := mkAccount cid ten a rt (clock w' + n) ui) in *.
  split; [|split; [|split; [|split]]].
  - intros Hin. rewrite Hstore.
    destruct (dict_get (store w) (Some (json_key (identity_of ui)))) as [old|] eqn:E;
      [|congruence].
    eapply dict_keys_set_old; eassumption.
  - intros Hnew. rewrite Hstore, (dict_set_new _ _ _ Hnew), dict_keys_app.
    reflexivity.
  - intros Hne. cbn [resolved]. rewrite Hstore. now apply dict_set_hd.
  - intros He. cbn [resolved]. rewrite Hstore, He. reflexivity.
  - unfold list_accounts. rewrite (bind_val _ _ _ _ _ (load_tokens_run w')).
    rewrite Hstore.
    destruct (dict_set (store w) (Some (json_key (identity_of ui))) new) eqn:E;
      [|reflexivity].
    destruct (store w) as [|[k0 v0] d0]; [discriminate|].
    simpl in E. destruct (key_eqb k0 _); discriminate.
Qed.

(** * The tasks client *)

Lemma match_task_list_skip (pre rest : list TaskList) (list_name : string) :
  Forall (named_otherwise list_name) pre ->
  match_task_list (pre ++ rest) list_name = match_task_list rest list_name.
Proof.
  induction 1 as [|l pre (name & Hname & Hne) _ IH]; [reflexivity|].
  cbn [app match_task_list]. rewrite Hname.
  destruct (String.eqb_spec name list_name); [contradiction | exact IH].
Qed.

Lemma get_task_list_id_calls_once (c : Client) (list_name : string) (g : Graph) :
  snd (_get_task_list_id c list_name g) = called (lists_request c) g.
Proof.
  unfold _get_task_list_id, graph_call. cbv zeta.
  destruct (g_status (g_server g (g_sent g)) =? 200); [|reflexivity].
  destruct (match_task_list _ list_name) as [[i|]| | |]; try reflexivity.
  destruct (get_default _ _) as [|first rest]; [reflexivity|].
  now destruct (tl_id first).
Qed.

(** X17: Looking a task list up by name: of the lists the service returns, the
    first one whose [displayName] is the name gives the id, whatever
    follows it.  One request is made, with the client's bearer token. *)
Theorem task_list_is_the_first_with_the_name
    (c : Client) (list_name : string) (g : Graph)
    (pre post : list TaskList) (l : TaskList) (i : string) :
  g_status (g_server g (g_sent g)) = 200 ->
  g_value (g_server g (g_sent g)) = Some (pre ++ l :: post) ->
  Forall (named_otherwise list_name) pre ->
  tl_displayName l = Some list_name ->
  tl_id l = Some i ->
  _get_task_list_id c list_name g = (Ready i, called (lists_request c) g) /\
  In ("Authorization", ("Bearer " ++ c_access_token c)%string) (_headers c).
Proof.
  intros Hs Hv Hpre Hname Hid. split; [|now left].
  rewrite (surjective_pairing (_get_task_list_id c list_name g)).
  rewrite get_task_list_id_calls_once. f_equal.
  unfold _get_task_list_id, graph_call. cbv zeta. rewrite Hs, Hv.
  cbn [Z.eqb Pos.eqb get_default].
  rewrite (match_task_list_skip _ _ _ Hpre). cbn [match_task_list].
  rewrite Hname, String.eqb_refl, Hid. reflexivity.
Qed.

(** X18: When no list has the name, the lookup does not fail: it answers with
    the id of the first list the service returned.  So a task created
    under a name that does not exist is posted to the first list. *)
Theorem task_list_falls_back_to_the_first
    (c : Client) (list_name title : string) (due_date : option string) (g : Graph)
    (first : TaskList) (rest : list TaskList) (i : string) :
  g_status (g_server g (g_sent g)) = 200 ->
  g_value (g_server g (g_sent g)) = Some (first :: rest) ->
  Forall (named_otherwise list_name) (first :: rest) ->
  tl_id first = Some i ->
  _get_task_list_id c list_name g = (Ready i, called (lists_request c) g) /\
  exists body,
    g_calls (snd (create_task c title list_name due_date g)) =
      g_calls g ++ [lists_request c; GPost (tasks_url i) (_headers c) body] /\
    tb_title body = Some title.
Proof.
  intros Hs Hv Hall Hid.
  assert (_get_task_list_id c list_name g = (Ready i, called (lists_request c) g))
    as Hrun.
  { rewrite (surjective_pairing (_get_task_list_id c list_name g)).
    rewrite get_task_list_id_calls_once. f_equal.
    unfold _get_task_list_id, graph_call. cbv zeta. rewrite Hs, Hv.
    cbn [Z.eqb Pos.eqb get_default].
    rewrite <- (app_nil_r (first :: rest)).
    rewrite (match_task_list_skip _ _ _ Hall). cbn [match_task_list app].
    now rewrite Hid. }
  split; [exact Hrun|].
  unfold create_task. rewrite Hrun. unfold graph_call, called.
  cbn [g_server g_sent g_calls].
  destruct (truthy due_date);
    (eexists; split;
     [destruct (g_status _ =? 201); cbn [snd g_calls];
      rewrite <- app_assoc; reflexivity
     | reflexivity]).
Qed.

(** X19: The lookup fails only for want of a list: a status other than 200, or
    no list in the reply, raises the not-found exception; and then
    [create_task], [update_task] and [delete_task] raise it too and make
    no second call. *)
Theorem task_methods_stop_when_no_list_is_found
    (c : Client) (list_name : string) (g : Graph) :
  g_status (g_server g (g_sent g)) <> 200 \/
  g_value (g_server g (g_sent g)) = None \/
  g_value (g_server g (g_sent g)) = Some [] ->
  let failed A : ClientResult A * Graph :=
    (Failure (task_list_not_found list_name), called (lists_request c) g) in
  _get_task_list_id c list_name g = failed string /\
  (forall title due_date, create_task c title list_name due_date g = failed GraphReply) /\
  (forall task_id kwargs, update_task c task_id list_name kwargs g = failed GraphReply) /\
  (forall task_id, complete_task c task_id list_name g = failed GraphReply) /\
  (forall task_id, delete_task c task_id list_name g = failed unit).
Proof.
  intros Hcase. cbv zeta.
  assert (_get_task_list_id c list_name g
          = (Failure (task_list_not_found list_name), called (lists_request c) g))
    as Hrun.
  { unfold _get_task_list_id, graph_call. cbv zeta.
    destruct Hcase as [Hs|[Hv|Hv]].
    - apply Z.eqb_neq in Hs. now rewrite Hs.
    - rewrite Hv. now destruct (g_status _ =? 200).
    - rewrite Hv. now destruct (g_status _ =? 200). }
  split; [exact Hrun|].
  unfold complete_task, create_task, update_task, delete_task. rewrite Hrun.
  repeat split.
Qed.

Lemma match_task_list_In (lists : list TaskList) (list_name i : string) :
  match_task_list lists list_name = Ready (Some i) ->
  exists l, In l lists /\ tl_displayName l = Some list_name /\ tl_id l = Some i.
Proof.
  induction lists as [|l lists IH]; cbn [match_task_list]; [discriminate|].
  destruct (tl_displayName l) as [name|] eqn:En; [|discriminate].
  destruct (String.eqb_spec name list_name) as [->|Hne].
  - destruct (tl_id l) as [j|] eqn:Ei; [|discriminate].
    intros [= ->]. exists l. split; [now left | now split].
  - intros H. destruct (IH H) as (l' & Hin & Hl'). exists l'. split; [now right | exact Hl'].
Qed.

(** X20: An id the lookup returns is the id of a list in the reply: of one
    with the name asked for, or else of the first one. *)
Theorem task_list_id_comes_from_the_reply
    (c : Client) (list_name i : string) (g : Graph) :
  fst (_get_task_list_id c list_name g) = Ready i ->
  g_status (g_server g (g_sent g)) = 200 /\
  exists lists l,
    g_value (g_server g (g_sent g)) = Some lists /\
    In l lists /\ tl_id l = Some i /\
    (tl_displayName l = Some list_name \/ hd_error lists = Some l).
Proof.
  unfold _get_task_list_id, graph_call. cbv zeta.
  destruct (g_status (g_server g (g_sent g)) =? 200) eqn:Es; [|discriminate].
  intros Hrun. split; [now apply Z.eqb_eq|].
  destruct (g_value (g_server g (g_sent g))) as [lists|]; [|discriminate].
  cbn [get_default] in Hrun. exists lists.
  destruct (match_task_list lists list_name) as [[j|]| | |] eqn:Em;
    try discriminate.
  - injection Hrun as ->.
    destruct (match_task_list_In _ _ _ Em) as (l & Hin & Hn & Hi).
    exists l. auto.
  - destruct lists as [|first rest]; [discriminate|].
    destruct (tl_id first) as [j|] eqn:Ei; [|discriminate].
    injection Hrun as ->. exists first.
    split; [reflexivity|]. split; [now left|]. split; [exact Ei|]. now right.
Qed.


(** * The further properties on the scenarios *)

Lemma refresh_with_a_missing_key_raises_witness :
  status_code (server incomplete_refresh_world (sent incomplete_refresh_world)) = 200 /\
  fst (_refresh_token (Some "alice@example.com") alice incomplete_refresh_world)
    = Raise (KeyError (Some "access_token")) /\
  token_file (snd (_refresh_token (Some "alice@example.com") alice
                     incomplete_refresh_world))
    = Some two_accounts.
Proof.
  assert (status_code (server incomplete_refresh_world (sent incomplete_refresh_world))
          = 200) as H by reflexivity.
  destruct (refresh_with_a_missing_key_raises
              incomplete_refresh_world (Some "alice@example.com") alice H)
    as (Hk & _ & _ & Hf).
  split; [exact H|]. split; [exact (Hk eq_refl)|].
  apply Hf. intros a. rewrite (Hk eq_refl). discriminate.
Defined.

Lemma refreshed_token_is_cached_witness :
  dict_get (store rotating_world) (resolved (store rotating_world) None) = Some alice /\
  expires_at alice - 300 <= clock rotating_world /\
  status_code (server rotating_world (sent rotating_world)) = 200 /\
  j_access_token (json (server rotating_world (sent rotating_world))) = Some "at-new" /\
  "at-new" <> "" /\
  j_expires_in (json (server rotating_world (sent rotating_world))) = Some 3600 /\
  300 < 3600 /\
  get_access_token None (snd (get_access_token None rotating_world))
    = (Val (Some "at-new"), snd (get_access_token None rotating_world)).
Proof.
  assert (dict_get (store rotating_world) (resolved (store rotating_world) None)
          = Some alice) as H1 by reflexivity.
  assert (expires_at alice - 300 <= clock rotating_world) as H2
    by (vm_compute; discriminate).
  assert (status_code (server rotating_world (sent rotating_world)) = 200)
    as H3 by reflexivity.
  assert (j_access_token (json (server rotating_world (sent rotating_world)))
          = Some "at-new") as H4 by reflexivity.
  assert ("at-new" <> "") as H5 by discriminate.
  assert (j_expires_in (json (server rotating_world (sent rotating_world)))
          = Some 3600) as H6 by reflexivity.
  assert (300 < 3600) as H7 by reflexivity.
  repeat (split; [assumption|]).
  exact (proj1 (proj2 (refreshed_token_is_cached
                         rotating_world None alice "at-new" 3600
                         H1 H2 H3 H4 H5 H6 H7))).
Defined.

Lemma resolver_drops_an_empty_refreshed_token_witness :
  dict_get (store empty_token_world) (resolved (store empty_token_world) None)
    = Some alice /\
  expires_at alice - 300 <= clock empty_token_world /\
  status_code (server empty_token_world (sent empty_token_world)) = 200 /\
  j_access_token (json (server empty_token_world (sent empty_token_world))) = Some "" /\
  j_expires_in (json (server empty_token_world (sent empty_token_world))) = Some 3600 /\
  fst (get_access_token None empty_token_world) = Val None.
Proof.
  assert (dict_get (store empty_token_world) (resolved (store empty_token_world) None)
          = Some alice) as H1 by reflexivity.
  assert (expires_at alice - 300 <= clock empty_token_world) as H2
    by (vm_compute; discriminate).
  assert (status_code (server empty_token_world (sent empty_token_world)) = 200)
    as H3 by reflexivity.
  assert (j_access_token (json (server empty_token_world (sent empty_token_world)))
          = Some "") as H4 by reflexivity.
  assert (j_expires_in (json (server empty_token_world (sent empty_token_world)))
          = Some 3600) as H5 by reflexivity.
  repeat (split; [assumption|]).
  exact (proj1 (resolver_drops_an_empty_refreshed_token
                  empty_token_world None alice 3600 H1 H2 H3 H4 H5)).
Defined.

Lemma client_holds_the_stored_token_witness :
  client_init (Some "bob@contoso.example") fresh_world = (Ready bob_client, fresh_world) /\
  c_access_token bob_client <> "" /\
  exists a,
    dict_get (store fresh_world)
             (resolved (store fresh_world) (Some "bob@contoso.example")) = Some a /\
    access_token a = c_access_token bob_client.
Proof.
  assert (client_init (Some "bob@contoso.example") fresh_world
          = (Ready bob_client, fresh_world)) as H by reflexivity.
  destruct (client_holds_the_stored_token
              fresh_world fresh_world (Some "bob@contoso.example") bob_client H)
    as (_ & Hne & Hst & _).
  split; [exact H|]. split; [exact Hne | exact Hst].
Defined.

Lemma client_is_refused_without_a_token_witness :
  store empty_world = [] /\
  fst (client_init None empty_world) = Failure "Not authenticated".
Proof.
  assert (store empty_world = []) as H by reflexivity.
  split; [exact H|].
  exact (proj1 (client_is_refused_without_a_token empty_world None (or_introl H))).
Defined.

Lemma logout_clears_every_account_witness :
  token_file fresh_world <> None /\
  fst (logout fresh_world) = Val NLoggedOut /\
  store (snd (logout fresh_world)) = [] /\
  token_file empty_world = None /\
  logout empty_world = (Val NNoSession, empty_world).
Proof.
  assert (token_file fresh_world <> None) as H1 by discriminate.
  assert (token_file empty_world = None) as H2 by reflexivity.
  destruct (logout_clears_every_account fresh_world) as (Hout & _ & _ & Hst & _).
  destruct (logout_clears_every_account empty_world) as (_ & Hno & _).
  split; [exact H1|]. split; [exact (Hout H1)|]. split; [exact Hst|].
  split; [exact H2 | exact (Hno H2)].
Defined.

Lemma list_accounts_lists_the_store_witness :
  store fresh_world <> [] /\
  exists lines,
    list_accounts fresh_world = (Val lines, fresh_world) /\
    lines = NAccountsHeader :: map NAccountLine (dict_keys (store fresh_world)).
Proof.
  assert (store fresh_world <> []) as H by (vm_compute; discriminate).
  split; [exact H|].
  destruct (list_accounts_lists_the_store fresh_world) as (lines & Hrun & _ & Hl & _).
  exists lines. split; [exact Hrun | exact (Hl H)].
Defined.

Lemma status_agrees_with_the_resolver_witness :
  (forall a b, a < b -> utc_plus_one a < utc_plus_one b) /\
  store late_world <> [] /\
  exists lines,
    status utc_plus_one late_world = (Val lines, late_world) /\
    length lines = length (store late_world).
Proof.
  assert (forall a b, a < b -> utc_plus_one a < utc_plus_one b) as H1
    by (unfold utc_plus_one; intros; lia).
  assert (store late_world <> []) as H2 by (vm_compute; discriminate).
  split; [exact H1|]. split; [exact H2|].
  destruct (status_agrees_with_the_resolver utc_plus_one late_world H1 H2)
    as (lines & Hrun & Hlen & _).
  exists lines. split; [exact Hrun | exact Hlen].
Defined.

(** On that world [status] shows Alice expired and Bob valid until the
    local reading of 9000. *)
Example status_of_the_late_world :
  fst (status utc_plus_one late_world) =
    Val [NExpired (Some "alice@example.com");
         NValid (Some "bob@contoso.example") 12600].
Proof. reflexivity. Qed.

Lemma login_stops_when_the_code_request_is_refused_witness :
  status_code (server refused_code_world (sent refused_code_world)) <> 200 /\
  fst (device_code_login 10 "app-1" "consumers" refused_code_world) = Val false /\
  sent (snd (device_code_login 10 "app-1" "consumers" refused_code_world)) = 1%nat.
Proof.
  assert (status_code (server refused_code_world (sent refused_code_world)) <> 200)
    as H by (vm_compute; discriminate).
  destruct (login_stops_when_the_code_request_is_refused
              10 "app-1" "consumers" refused_code_world H)
    as (Hr & _ & _ & Hsent & _).
  split; [exact H|]. split; [exact Hr | exact Hsent].
Defined.

Lemma login_raises_on_an_incomplete_code_reply_witness :
  status_code (server incomplete_code_world (sent incomplete_code_world)) = 200 /\
  fst (device_code_login 10 "app-1" "consumers" incomplete_code_world)
    = Raise (KeyError (Some "user_code")).
Proof.
  assert (status_code (server incomplete_code_world (sent incomplete_code_world)) = 200)
    as H by reflexivity.
  split; [exact H|].
  exact (proj1 (login_raises_on_an_incomplete_code_reply
                  10 "app-1" "consumers" incomplete_code_world H
                  "user_code" eq_refl)).
Defined.

Lemma login_writes_only_on_success_witness :
  fst (device_code_login 10 "app-1" "consumers" refused_code_world) <> Val true /\
  token_file (snd (device_code_login 10 "app-1" "consumers" refused_code_world))
    = Some two_accounts /\
  fst (device_code_login 10 "app-1" "consumers" three_pending_world) = Val true /\
  writes (trace (snd (device_code_login 10 "app-1" "consumers" three_pending_world)))
    = 1%nat.
Proof.
  assert (fst (device_code_login 10 "app-1" "consumers" refused_code_world)
          <> Val true) as H1 by (vm_compute; discriminate).
  assert (fst (device_code_login 10 "app-1" "consumers" three_pending_world)
          = Val true) as H2 by reflexivity.
  destruct (login_writes_only_on_success 10 "app-1" "consumers" refused_code_world)
    as (_ & Hfail).
  destruct (login_writes_only_on_success 10 "app-1" "consumers" three_pending_world)
    as (Hok & _).
  split; [exact H1|]. split; [exact (proj1 (Hfail H1))|].
  split; [exact H2 | exact (Hok H2)].
Defined.


Lemma token_of_a_login_is_served_by_the_resolver_witness :
  elapsed 100 login_world < 900 /\
  0 <= 5 /\
  status_code (server login_world (sent login_world)) = 200 /\
  300 < 3600 /\
  get_access_token (Some "carol@example.com")
    (snd (poll_loop 1 "app-1" "consumers" "dc-1" 5 900 100 login_world))
  = (Val (Some "at-carol"),
     snd (poll_loop 1 "app-1" "consumers" "dc-1" 5 900 100 login_world)).
Proof.
  assert (elapsed 100 login_world < 900) as H1 by reflexivity.
  assert (0 <= 5) as H2 by lia.
  assert (status_code (server login_world (sent login_world)) = 200)
    as H3 by reflexivity.
  assert (300 < 3600) as H4 by reflexivity.
  repeat (split; [assumption|]).
  exact (token_of_a_login_is_served_by_the_resolver
           0 "app-1" "consumers" "dc-1" 5 900 100 login_world
           "at-carol" "rt-carol" 3600 H1 H2 H3 eq_refl eq_refl eq_refl H4).
Defined.

Lemma login_keeps_the_accounts_in_order_witness :
  elapsed 100 login_world < 900 /\
  0 <= 5 /\
  status_code (server login_world (sent login_world)) = 200 /\
  dict_get (store login_world) (Some "carol@example.com") = None /\
  store login_world <> [] /\
  dict_keys (store (snd (poll_loop 1 "app-1" "consumers" "dc-1" 5 900 100 login_world)))
    = dict_keys (store login_world) ++ [Some "carol@example.com"] /\
  resolved (store (snd (poll_loop 1 "app-1" "consumers" "dc-1" 5 900 100 login_world)))
           None
    = resolved (store login_world) None.
Proof.
  assert (elapsed 100 login_world < 900) as H1 by reflexivity.
  assert (0 <= 5) as H2 by lia.
  assert (status_code (server login_world (sent login_world)) = 200)
    as H3 by reflexivity.
  assert (dict_get (store login_world) (Some "carol@example.com") = None)
    as H4 by reflexivity.
  assert (store login_world <> []) as H5 by (vm_compute; discriminate).
  repeat (split; [assumption|]).
  destruct (login_keeps_the_accounts_in_order
              0 "app-1" "consumers" "dc-1" 5 900 100 login_world
              "at-carol" "rt-carol" 3600 H1 H2 H3 eq_refl eq_refl eq_refl)
    as (_ & Hnew & Hdef & _).
  split; [exact (Hnew H4) | exact (Hdef H5)].
Defined.

Lemma task_list_is_the_first_with_the_name_witness :
  g_status (g_server lists_graph (g_sent lists_graph)) = 200 /\
  Forall (named_otherwise "Work") [mkTaskList (Some "Tasks") (Some "id-tasks")] /\
  _get_task_list_id bob_client "Work" lists_graph
    = (Ready "id-work", called (lists_request bob_client) lists_graph).
Proof.
  assert (g_status (g_server lists_graph (g_sent lists_graph)) = 200)
    as H1 by reflexivity.
  assert (Forall (named_otherwise "Work") [mkTaskList (Some "Tasks") (Some "id-tasks")])
    as H2.
  { constructor; [|constructor]. exists "Tasks". split; [reflexivity | discriminate]. }
  split; [exact H1|]. split; [exact H2|].
  exact (proj1 (task_list_is_the_first_with_the_name
                  bob_client "Work" lists_graph
                  [mkTaskList (Some "Tasks") (Some "id-tasks")]
                  [mkTaskList (Some "Work") (Some "id-work-2")]
                  (mkTaskList (Some "Work") (Some "id-work")) "id-work"
                  H1 eq_refl H2 eq_refl eq_refl)).
Defined.

Lemma task_list_falls_back_to_the_first_witness :
  g_status (g_server lists_graph (g_sent lists_graph)) = 200 /\
  Forall (named_otherwise "Shopping") my_lists /\
  _get_task_list_id bob_client "Shopping" lists_graph
    = (Ready "id-tasks", called (lists_request bob_client) lists_graph).
Proof.
  assert (g_status (g_server lists_graph (g_sent lists_graph)) = 200)
    as H1 by reflexivity.
  assert (Forall (named_otherwise "Shopping") my_lists) as H2.
  { repeat constructor.
    - exists "Tasks". split; [reflexivity | discriminate].
    - exists "Work". split; [reflexivity | discriminate].
    - exists "Work". split; [reflexivity | discriminate]. }
  split; [exact H1|]. split; [exact H2|].
  exact (proj1 (task_list_falls_back_to_the_first
                  bob_client "Shopping" "milk" None lists_graph
                  (mkTaskList (Some "Tasks") (Some "id-tasks"))
                  [mkTaskList (Some "Work") (Some "id-work");
                   mkTaskList (Some "Work") (Some "id-work-2")]
                  "id-tasks" H1 eq_refl H2 eq_refl)).
Defined.

Lemma task_methods_stop_when_no_list_is_found_witness :
  g_value (g_server no_lists_graph (g_sent no_lists_graph)) = Some [] /\
  delete_task bob_client "task-1" "Tasks" no_lists_graph
    = (Failure "Task list 'Tasks' not found",
       called (lists_request bob_client) no_lists_graph).
Proof.
  assert (g_value (g_server no_lists_graph (g_sent no_lists_graph)) = Some [])
    as H by reflexivity.
  split; [exact H|].
  destruct (task_methods_stop_when_no_list_is_found
              bob_client "Tasks" no_lists_graph (or_intror (or_intror H)))
    as (_ & _ & _ & _ & Hd).
  exact (Hd "task-1").
Defined.

Lemma task_list_id_comes_from_the_reply_witness :
  fst (_get_task_list_id bob_client "Work" lists_graph) = Ready "id-work" /\
  exists lists l,
    g_value (g_server lists_graph (g_sent lists_graph)) = Some lists /\
    In l lists /\ tl_id l = Some "id-work".
Proof.
  assert (fst (_get_task_list_id bob_client "Work" lists_graph) = Ready "id-work")
    as H by reflexivity.
  split; [exact H|].
  destruct (task_list_id_comes_from_the_reply bob_client "Work" "id-work" lists_graph H)
    as (_ & lists & l & Hv & Hin & Hid & _).
  exists lists, l. auto.
Defined.


(** X10: The two ways a login can end before its first poll.  A device code
    whose [expires_in] is not positive times out at once: [False] after
    the timeout message, no poll sent.  A negative polling interval makes
    the first [time.sleep] raise [ValueError], again before any poll.  In
    both the only request is the one for the code and the file is
    untouched. *)
Theorem login_ends_before_the_first_poll
    (fuel : nat) (cid ten : string) (w : World) (dc uc : string) (E : Z) :
  status_code (server w (sent w)) = 200 ->
  j_device_code (json (server w (sent w))) = Some dc ->
  j_user_code (json (server w (sent w))) = Some uc ->
  j_expires_in (json (server w (sent w))) = Some E ->
  let out := device_code_login (S fuel) cid ten w in
  (E <= 0 ->
   out = (Val false, log (Echo false MTimeout) (code_shown cid ten w)) /\
   ends_in TIMED_OUT out) /\
  (0 < E -> get_default (j_interval (json (server w (sent w)))) 5 < 0 ->
   out = (Raise ValueError, code_shown cid ten w)) /\
  (E <= 0 \/ get_default (j_interval (json (server w (sent w)))) 5 < 0 ->
   sent (snd out) = S (sent w) /\ token_file (snd out) = token_file w).
Proof.
  intros Hs Hdc Huc HE. cbv zeta.
  rewrite device_code_login_start. cbv zeta. rewrite Hs, Hdc, Huc, HE.
  cbn [Z.eqb Pos.eqb]. rewrite poll_loop_step. cbv zeta.
  assert (clock (code_shown cid ten w)
          - clock (after_reply (device_code_request cid ten)
                     (log (Echo false MRequestingCode) w)) = 0) as ->
    by (unfold code_shown; cbv zeta; cbn [clock]; lia).
  split; [|split].
  - intros Hle. destruct (Z.ltb_spec 0 E); [lia|].
    split; [reflexivity|]. split.
    + exists false. split; [reflexivity|]. split; discriminate.
    + eexists. eexists. split; reflexivity.
  - intros Hpos Hneg. destruct (Z.ltb_spec 0 E); [|lia].
    destruct (Z.ltb_spec (get_default (j_interval (json (server w (sent w)))) 5) 0);
      [reflexivity | lia].
  - intros Hcase. destruct (Z.ltb_spec 0 E); [|split; reflexivity].
    destruct (Z.ltb_spec (get_default (j_interval (json (server w (sent w)))) 5) 0);
      [split; reflexivity | lia].
Qed.

Lemma login_ends_before_the_first_poll_witness :
  status_code (server no_time_world (sent no_time_world)) = 200 /\
  ends_in TIMED_OUT (device_code_login 1 "app-1" "consumers" no_time_world) /\
  status_code (server negative_interval_world (sent negative_interval_world)) = 200 /\
  fst (device_code_login 1 "app-1" "consumers" negative_interval_world)
    = Raise ValueError.
Proof.
  assert (status_code (server no_time_world (sent no_time_world)) = 200)
    as H1 by reflexivity.
  assert (status_code (server negative_interval_world (sent negative_interval_world))
          = 200) as H2 by reflexivity.
  destruct (login_ends_before_the_first_poll
              0 "app-1" "consumers" no_time_world "dc-1" "ABCD-1234" 0
              H1 eq_refl eq_refl eq_refl) as (Hnt & _ & _).
  destruct (login_ends_before_the_first_poll
              0 "app-1" "consumers" negative_interval_world "dc-1" "ABCD-1234" 900
              H2 eq_refl eq_refl eq_refl) as (_ & Hneg & _).
  split; [exact H1|]. split; [exact (proj2 (Hnt ltac:(lia)))|].
  split; [exact H2|].
  rewrite (Hneg ltac:(lia) ltac:(vm_compute; reflexivity)). reflexivity.
Defined.
